(** * DuoCast AI: retry, polling, credit ledger and orchestration

    A shallow embedding of the generation services
    ([server/services/imageGen.js], [server/services/videoGen.js]), of the
    credit ledger and HTTP handlers of [server/index.js], and of the three
    orchestrators ([src/pipeline/duocast.ts], the web server's
    [processGeneration], the React client's [handleGenerate]), followed by
    the properties of the specification stated over them.

    Conventions of the embedding:
    - an [await]ed call that can reject is a [Completion]: [Returned v] or
      [Thrown message]; an [Error] object is represented by its [message],
      the only field the code ever inspects;
    - the remote services are the environment: every [fetch] consumes one
      [Tick] of a script, holding the time the round trip takes and what
      comes back;
    - [Date.now()] and [setTimeout] act on an explicit clock in the [World],
      which also records the observable effects (sleeps, requests, status
      callbacks) in order;
    - credit amounts, status codes and times are integers ([Z]): the range
      in which JavaScript arithmetic is exact;
    - a response that has arrived carries its body: [response.text()] returns
      it, [response.json()] returns the parsed body or throws; writing the
      credits file succeeds;
    - console output is not modelled. *)

From Stdlib Require Import ZArith Lia DecimalString.
From stdpp Require Import gmap strings list.

Open Scope Z_scope.

(* ===================================================================== *)
(** ** JavaScript values and control flow *)
(* ===================================================================== *)

Module Js.

(** Outcome of evaluating an expression or awaiting a promise. *)
Inductive Completion (A : Type) : Type :=
| Returned (value : A)
| Thrown (message : string).
Arguments Returned {A} value.
Arguments Thrown {A} message.

(** [String.prototype.includes]. *)
Fixpoint includes (s needle : string) : bool :=
  String.prefix needle s ||
  match s with
  | EmptyString => false
  | String _ rest => includes rest needle
  end.

(** Template-literal rendering of an integer, [`${n}`]. *)
Definition num (n : Z) : string := NilZero.string_of_int (Z.to_int n).

(** Truthiness of an optional string: [undefined] and [''] are falsy. *)
Definition truthy (s : option string) : bool :=
  match s with
  | Some v => negb (String.eqb v EmptyString)
  | None => false
  end.

(** [a || b] on optional strings. *)
Definition or_else (a b : option string) : option string :=
  if truthy a then a else b.

(** [n || d] on an optional number: [undefined] and [0] give [d]. *)
Definition num_or (n : option Z) (d : Z) : Z :=
  match n with
  | Some v => if v =? 0 then d else v
  | None => d
  end.

End Js.

Export Js.

(* ===================================================================== *)
(** ** The world: clock, effects, remote responses *)
(* ===================================================================== *)

Module Net.

(** Observable effects, in the order the code performs them. *)
Inductive Event : Type :=
| EvSleep (ms : Z)                      (* await sleep(ms) *)
| EvRequest (url : string) (issuedAt : Z) (* fetch(url, ...) at clock time *)
| EvStatus (status : option string).    (* onStatus({ status, generationId }) *)

Record World : Type := mkWorld {
  now : Z;                 (* what Date.now() returns *)
  trace : list Event;
}.

(** What [fetch] resolves to. [json] is the completion of
    [response.json()]: it throws when the body is not JSON. *)
Record Response (B : Type) : Type := mkResponse {
  status : Z;
  text : string;
  json : Completion B;
}.
Arguments mkResponse {B} status text json.
Arguments status {B} r.
Arguments text {B} r.
Arguments json {B} r.

(** [response.ok]. *)
Definition ok {B} (r : Response B) : bool :=
  (200 <=? status r) && (status r <=? 299).

(** One scripted round trip: how long it takes and what [fetch] gives
    ([Thrown] when the promise rejects, e.g. on a network failure). *)
Record Tick (B : Type) : Type := mkTick {
  latency : Z;
  outcome : Completion (Response B);
}.
Arguments mkTick {B} latency outcome.
Arguments latency {B} t.
Arguments outcome {B} t.

(** [function sleep(ms)]: resolves after [ms] milliseconds. *)
Definition sleep (ms : Z) (w : World) : World :=
  {| now := now w + ms; trace := trace w ++ [EvSleep ms] |}.

(** Issuing a request and waiting for its outcome. *)
Definition fetch {B} (url : string) (t : Tick B) (w : World) : World :=
  {| now := now w + latency t; trace := trace w ++ [EvRequest url (now w)] |}.

(** Invoking the optional status callback. *)
Definition notify (present : bool) (s : option string) (w : World) : World :=
  if present then {| now := now w; trace := trace w ++ [EvStatus s] |} else w.

Definition sleeps (tr : list Event) : list Z :=
  omap (fun e => match e with EvSleep ms => Some ms | _ => None end) tr.

Definition requests (tr : list Event) : list Z :=
  omap (fun e => match e with EvRequest _ t => Some t | _ => None end) tr.

End Net.

Export Net.

(** Usage metadata shared by both remote APIs: [data.meta?.usage?.credits_used]. *)
Record Usage : Type := { credits_used : option Z }.
Record Meta : Type := { usage : option Usage }.

Definition meta_credits (m : option Meta) : option Z :=
  match m with
  | Some m' => match usage m' with
               | Some u => credits_used u
               | None => None
               end
  | None => None
  end.

(* ===================================================================== *)
(** ** server/services/imageGen.js *)
(* ===================================================================== *)

Module ImageGen.

Definition API_BASE : string := "https://api.aimlapi.com".
Definition MAX_RETRIES : nat := 3.
Definition RETRY_DELAYS : list Z := [5000; 15000; 30000].

Record ImageItem : Type := { item_url : option string; b64_json : option string }.

(** The documented shapes of the scene response body. *)
Record SceneData : Type := {
  data : option (list ImageItem);
  images : option (list ImageItem);
  url : option string;
  meta : option Meta;
}.

Record SceneResult : Type := { imageUrl : string; creditsUsed : Z }.

(** [RETRY_DELAYS[attempt - 1] || 30000]. *)
Definition retryDelay (attempt : nat) : Z :=
  num_or (RETRY_DELAYS !! (attempt - 1)%nat) 30000.

(** The [if / else if / else if] chain that picks the image locator. *)
Definition extractImageUrl (d : SceneData) : option string :=
  match data d ≫= head with
  | Some first => or_else (item_url first) (b64_json first)
  | None =>
      match images d ≫= head with
      | Some first => item_url first
      | None => if truthy (url d) then url d else None
      end
  end.

(** What one pass through the [try] block does with the fetch outcome. *)
Inductive Attempt : Type :=
| Success (r : SceneResult)       (* return { imageUrl, creditsUsed } *)
| ServerError (message : string)  (* status >= 500: lastError set, continue *)
| Caught (message : string).      (* control reaches the catch block *)

Definition attemptBody (o : Completion (Response SceneData)) : Attempt :=
  match o with
  | Thrown m => Caught m
  | Returned response =>
      if 500 <=? status response then
        ServerError ("NanoBanana API error (" +:+ num (status response) +:+ "): Server error")
      else if negb (ok response) then
        Caught ("NanoBanana API error (" +:+ num (status response) +:+ "): " +:+ text response)
      else
        match json response with
        | Thrown m => Caught m
        | Returned d =>
            match extractImageUrl d with
            | Some u =>
                if truthy (Some u) then
                  Success {| imageUrl := u; creditsUsed := num_or (meta_credits (meta d)) 0 |}
                else Caught "No image URL found in API response"
            | None => Caught "No image URL found in API response"
            end
        end
  end.

(** The retry loop, [for (attempt = 0; attempt <= MAX_RETRIES; attempt++)].
    [todo] counts the iterations still allowed, [MAX_RETRIES + 1 - attempt].
    The result is [None] when the script has no outcome left for a request
    the code makes. *)
Fixpoint retryLoop (todo attempt : nat) (lastError : option string)
    (w : World) (script : list (Tick SceneData))
    : option (Completion SceneResult * World) :=
  match todo with
  | O =>
      Some (Thrown (default "Scene generation failed after retries" lastError), w)
  | S todo' =>
      let w1 := if (0 <? attempt)%nat then sleep (retryDelay attempt) w else w in
      match script with
      | [] => None
      | t :: rest =>
          let w2 := fetch (API_BASE +:+ "/v1/images/generations") t w1 in
          match attemptBody (outcome t) with
          | Success r => Some (Returned r, w2)
          | ServerError m => retryLoop todo' (S attempt) (Some m) w2 rest
          | Caught m =>
              if includes m "API error (4" then Some (Thrown m, w2)
              else retryLoop todo' (S attempt) (Some m) w2 rest
          end
      end
  end.

Definition generateScene (imageABase64 imageBBase64 scenarioPrompt apiKey : string)
    (w : World) (script : list (Tick SceneData))
    : option (Completion SceneResult * World) :=
  retryLoop (MAX_RETRIES + 1) 0 None w script.

End ImageGen.

(* ===================================================================== *)
(** ** server/services/videoGen.js *)
(* ===================================================================== *)

Module VideoGen.

Definition API_BASE : string := "https://api.aimlapi.com/v2".
Definition POLL_INTERVAL_MS : Z := 10000.
Definition TIMEOUT_MS : Z := 5 * 60 * 1000.
Definition MAX_RETRIES : nat := 3.
Definition RETRY_DELAYS : list Z := [5000; 15000; 30000].

(** Body of the create response. *)
Record CreateData : Type := { id : option string }.

(** Body of a poll response. *)
Record Video : Type := { video_url : option string }.
Record ErrorInfo : Type := { error_message : option string }.
Record PollData : Type := {
  job_status : option string;
  video : option Video;
  meta : option Meta;
  error : option ErrorInfo;
}.

Record VideoResult : Type := {
  videoUrl : string;
  generationId : string;
  creditsUsed : Z;
}.

(** The scripted environment of one call: the outcomes of the create
    requests and those of the poll requests. *)
Record Script : Type := {
  creates : list (Tick CreateData);
  polls : list (Tick PollData);
}.

(** [RETRY_DELAYS[attempt - 1] || 30000]. *)
Definition retryDelay (attempt : nat) : Z :=
  num_or (RETRY_DELAYS !! (attempt - 1)%nat) 30000.

(** *** Step 1: create the task, with retry *)

Inductive Attempt : Type :=
| Created (generationId : string)  (* break *)
| ServerError (message : string)   (* status >= 500: lastError set, continue *)
| Caught (message : string).       (* control reaches the catch block *)

Definition createBody (o : Completion (Response CreateData)) : Attempt :=
  match o with
  | Thrown m => Caught m
  | Returned createResponse =>
      if 500 <=? status createResponse then
        ServerError ("Veo 3.1 create error (" +:+ num (status createResponse) +:+ "): Server error")
      else if negb (ok createResponse) then
        Caught ("Veo 3.1 create error (" +:+ num (status createResponse) +:+ "): "
                +:+ text createResponse)
      else
        match json createResponse with
        | Thrown m => Caught m
        | Returned createData =>
            match id createData with
            | Some g =>
                if truthy (Some g) then Created g
                else Caught "No generation ID received from Veo 3.1 API"
            | None => Caught "No generation ID received from Veo 3.1 API"
            end
        end
  end.

(** [for (attempt = 0; attempt <= MAX_RETRIES; attempt++)], followed by
    [if (!generationId) throw lastError || ...]. *)
Fixpoint createLoop (todo attempt : nat) (lastError : option string)
    (w : World) (script : list (Tick CreateData))
    : option (Completion string * World) :=
  match todo with
  | O =>
      Some (Thrown (default "Video creation failed after retries" lastError), w)
  | S todo' =>
      let w1 := if (0 <? attempt)%nat then sleep (retryDelay attempt) w else w in
      match script with
      | [] => None
      | t :: rest =>
          let w2 := fetch (API_BASE +:+ "/video/generations") t w1 in
          match createBody (outcome t) with
          | Created g => Some (Returned g, w2)
          | ServerError m => createLoop todo' (S attempt) (Some m) w2 rest
          | Caught m =>
              if includes m "error (4" then Some (Thrown m, w2)
              else createLoop todo' (S attempt) (Some m) w2 rest
          end
      end
  end.

(** *** Step 2: poll for completion *)

(** How one iteration of the [while] loop ends. *)
Inductive PollStep : Type :=
| Finished (r : VideoResult)             (* return { videoUrl, ... } *)
| Abort (message : string)               (* an error leaves the loop *)
| Again (consecutivePollErrors : Z).     (* back to the loop condition *)

(** The [catch (err)] block of the polling loop. *)
Definition pollCatch (message : string) (consecutivePollErrors : Z) : PollStep :=
  if includes message "poll error" && negb (includes message "server errors") then
    Abort message
  else if includes message "failed" || includes message "completed" then
    Abort message
  else
    let n := consecutivePollErrors + 1 in
    if 5 <=? n then Abort message else Again n.

(** The [try] block of the polling loop, after the request. *)
Definition pollBody (generationId : string) (onStatus : bool)
    (consecutivePollErrors : Z) (o : Completion (Response PollData))
    (w : World) : PollStep * World :=
  match o with
  | Thrown m => (pollCatch m consecutivePollErrors, w)
  | Returned pollResponse =>
      if 500 <=? status pollResponse then
        let n := consecutivePollErrors + 1 in
        if 5 <=? n then
          (pollCatch "Veo 3.1 polling failed after 5 consecutive server errors" n, w)
        else (Again n, w)
      else if negb (ok pollResponse) then
        (pollCatch ("Veo 3.1 poll error (" +:+ num (status pollResponse) +:+ "): "
                    +:+ text pollResponse) consecutivePollErrors, w)
      else
        (* consecutivePollErrors = 0 *)
        match json pollResponse with
        | Thrown m => (pollCatch m 0, w)
        | Returned pollData =>
            let w' := notify onStatus (job_status pollData) w in
            if bool_decide (job_status pollData = Some "completed") then
              let url := video pollData ≫= video_url in
              match url with
              | Some u =>
                  if truthy (Some u) then
                    (Finished {| videoUrl := u;
                                 generationId := generationId;
                                 creditsUsed := num_or (meta_credits (meta pollData)) 0 |}, w')
                  else (pollCatch "Video completed but no URL found in response" 0, w')
              | None => (pollCatch "Video completed but no URL found in response" 0, w')
              end
            else if bool_decide (job_status pollData = Some "failed")
                    || bool_decide (job_status pollData = Some "error") then
              let errMsg :=
                default "Unknown error"
                  (or_else (error pollData ≫= error_message) (Some "Unknown error")) in
              (pollCatch ("Video generation failed: " +:+ errMsg) 0, w')
            else (Again 0, w')
        end
  end.

Definition timeoutMessage : string :=
  "Video generation timed out after " +:+ num (TIMEOUT_MS / 1000) +:+ "s".

(** [while (Date.now() - startTime < TIMEOUT_MS) { await sleep(...); ... }]
    and the [throw] after it. Each iteration consumes one scripted poll;
    the result is [None] when the script runs out while the loop is still
    going. *)
Fixpoint pollLoop (generationId : string) (onStatus : bool) (startTime : Z)
    (consecutivePollErrors : Z) (w : World) (script : list (Tick PollData))
    : option (Completion VideoResult * World) :=
  if now w - startTime <? TIMEOUT_MS then
    match script with
    | [] => None
    | t :: rest =>
        let w1 := sleep POLL_INTERVAL_MS w in
        let w2 := fetch (API_BASE +:+ "/video/generations?generation_id=" +:+ generationId) t w1 in
        match pollBody generationId onStatus consecutivePollErrors (outcome t) w2 with
        | (Finished r, w3) => Some (Returned r, w3)
        | (Abort m, w3) => Some (Thrown m, w3)
        | (Again n, w3) => pollLoop generationId onStatus startTime n w3 rest
        end
    end
  else Some (Thrown timeoutMessage, w).

Definition generateVideo (sceneImageUrl videoPrompt : string) (duration : Z)
    (apiKey : string) (onStatus : bool) (w : World) (script : Script)
    : option (Completion VideoResult * World) :=
  match createLoop (MAX_RETRIES + 1) 0 None w (creates script) with
  | None => None
  | Some (Thrown m, w1) => Some (Thrown m, w1)
  | Some (Returned generationId, w1) =>
      let w2 := notify onStatus (Some "queued") w1 in
      let startTime := now w2 in
      pollLoop generationId onStatus startTime 0 w2 (polls script)
  end.

End VideoGen.

(* ===================================================================== *)
(** ** server/index.js: credit ledger and HTTP handlers *)
(* ===================================================================== *)

Module Server.

Definition STARTING_CREDITS : Z := 20000000.

(** The object [saveCredits] serialises, and what a parsed [credits.json]
    may hold of it. *)
Record CreditsRecord : Type := {
  startingCredits : option Z;
  rec_creditsUsed : option Z;
  rec_creditsRemaining : option Z;
  lastUpdated : option string;
}.

(** What the process finds at [CREDITS_FILE]. [JSON.stringify] followed
    by [JSON.parse] is taken to give the record back, so a written file
    is held in parsed form. *)
Inductive CreditsFile : Type :=
| Missing                       (* fs.existsSync is false *)
| Unreadable (message : string) (* fs.readFileSync throws *)
| Garbage (raw : string)        (* JSON.parse throws *)
| JsonNull                      (* parses to null: data.creditsUsed throws *)
| JsonObject (r : CreditsRecord).

(** [function loadCredits()]: every failure is caught and gives 0. *)
Definition loadCredits (f : CreditsFile) : Z :=
  match f with
  | Missing => 0
  | Unreadable _ => 0
  | Garbage _ => 0
  | JsonNull => 0
  | JsonObject r => num_or (rec_creditsUsed r) 0
  end.

(** The process-wide state: the module variable [creditsUsedTotal], the
    file on disk, and how many times the file has been written. *)
Record State : Type := {
  API_KEY : string;
  creditsUsedTotal : Z;
  creditsFile : CreditsFile;
  fileWrites : nat;
}.

(** Process start: [let creditsUsedTotal = loadCredits()]. *)
Definition start (apiKey : string) (f : CreditsFile) : State :=
  {| API_KEY := apiKey; creditsUsedTotal := loadCredits f;
     creditsFile := f; fileWrites := 0 |}.

(** [function saveCredits()]; [isoNow] is [new Date().toISOString()]. *)
Definition saveCredits (isoNow : string) (st : State) : State :=
  let data := {| startingCredits := Some STARTING_CREDITS;
                 rec_creditsUsed := Some (creditsUsedTotal st);
                 rec_creditsRemaining := Some (STARTING_CREDITS - creditsUsedTotal st);
                 lastUpdated := Some isoNow |} in
  {| API_KEY := API_KEY st; creditsUsedTotal := creditsUsedTotal st;
     creditsFile := JsonObject data; fileWrites := S (fileWrites st) |}.

(** The block shared by both generation handlers:
    [if (result.creditsUsed) { creditsUsedTotal += result.creditsUsed; saveCredits(); }] *)
Definition charge (creditsUsed : Z) (isoNow : string) (st : State) : State :=
  if creditsUsed =? 0 then st
  else
    saveCredits isoNow
      {| API_KEY := API_KEY st; creditsUsedTotal := creditsUsedTotal st + creditsUsed;
         creditsFile := creditsFile st; fileWrites := fileWrites st |}.

(** *** Requests and replies *)

Record Upload : Type := { mimetype : string; base64 : string }.

Record SceneRequest : Type := {
  portraitA : option Upload;
  portraitB : option Upload;
  scenario : option string;
}.

Record VideoRequest : Type := {
  sceneImageUrl : option string;
  videoPrompt : option string;
  duration : option Z;
}.

Inductive Body : Type :=
| ErrorBody (error : string)
| SceneBody (success : bool) (imageUrl : string) (creditsUsed creditsRemaining : Z)
| VideoBody (success : bool) (videoUrl generationId : string)
            (creditsUsed creditsRemaining : Z)
| CreditsBody (startingCredits creditsUsed creditsRemaining : Z).

Record Reply : Type := { code : Z; body : Body }.

(** The [creditsRemaining] a reply presents, when it presents one. *)
Definition presentedRemaining (r : Reply) : option Z :=
  match body r with
  | ErrorBody _ => None
  | SceneBody _ _ _ remaining => Some remaining
  | VideoBody _ _ _ _ remaining => Some remaining
  | CreditsBody _ _ remaining => Some remaining
  end.

Definition dataUri (u : Upload) : string :=
  "data:" +:+ mimetype u +:+ ";base64," +:+ base64 u.

(** [POST /api/generate-scene]. *)
Definition generateSceneHandler (st : State) (req : SceneRequest)
    (isoNow : string) (w : World) (script : list (Tick ImageGen.SceneData))
    : option (State * Reply * World) :=
  match portraitA req, portraitB req with
  | Some a, Some b =>
      if negb (truthy (scenario req)) then
        Some (st, {| code := 400; body := ErrorBody "Scenario text is required" |}, w)
      else
        match ImageGen.generateScene (dataUri a) (dataUri b)
                (default EmptyString (scenario req)) (API_KEY st) w script with
        | None => None
        | Some (Thrown m, w') =>
            Some (st, {| code := 500; body := ErrorBody m |}, w')
        | Some (Returned result, w') =>
            let st' := charge (ImageGen.creditsUsed result) isoNow st in
            Some (st',
                  {| code := 200;
                     body := SceneBody true (ImageGen.imageUrl result)
                               (ImageGen.creditsUsed result)
                               (STARTING_CREDITS - creditsUsedTotal st') |},
                  w')
        end
  | _, _ =>
      Some (st, {| code := 400; body := ErrorBody "Both portrait images are required" |}, w)
  end.

(** [POST /api/generate-video]; [duration] defaults to 8 and a status
    callback is always passed. *)
Definition generateVideoHandler (st : State) (req : VideoRequest)
    (isoNow : string) (w : World) (script : VideoGen.Script)
    : option (State * Reply * World) :=
  if negb (truthy (sceneImageUrl req)) then
    Some (st, {| code := 400; body := ErrorBody "Scene image URL is required" |}, w)
  else if negb (truthy (videoPrompt req)) then
    Some (st, {| code := 400; body := ErrorBody "Video prompt is required" |}, w)
  else
    match VideoGen.generateVideo (default EmptyString (sceneImageUrl req))
            (default EmptyString (videoPrompt req)) (default 8 (duration req))
            (API_KEY st) true w script with
    | None => None
    | Some (Thrown m, w') =>
        Some (st, {| code := 500; body := ErrorBody m |}, w')
    | Some (Returned result, w') =>
        let st' := charge (VideoGen.creditsUsed result) isoNow st in
        Some (st',
              {| code := 200;
                 body := VideoBody true (VideoGen.videoUrl result)
                           (VideoGen.generationId result)
                           (VideoGen.creditsUsed result)
                           (STARTING_CREDITS - creditsUsedTotal st') |},
              w')
    end.

(** [GET /api/credits]. *)
Definition creditsHandler (st : State) : Reply :=
  {| code := 200;
     body := CreditsBody STARTING_CREDITS (creditsUsedTotal st)
               (STARTING_CREDITS - creditsUsedTotal st) |}.

(** States the server can be in: after start from any file, and after
    any handled request. *)
Inductive reachable : State -> Prop :=
| reach_start apiKey f : reachable (start apiKey f)
| reach_scene st req isoNow w script st' reply w' :
    reachable st ->
    generateSceneHandler st req isoNow w script = Some (st', reply, w') ->
    reachable st'
| reach_video st req isoNow w script st' reply w' :
    reachable st ->
    generateVideoHandler st req isoNow w script = Some (st', reply, w') ->
    reachable st'.

End Server.

(* ===================================================================== *)
(** ** src/pipeline/duocast.ts: DuoCastPipeline.processConversation *)
(* ===================================================================== *)

Module Pipeline.





(** Results of the two stage services. *)
Record CompositeSceneResult : Type := { imageData : string; mimeType : string }.
Record VideoGenerationResult : Type := {
  vr_videoPath : string;
  prompt : string;
  durationMs : Z;
}.

(** The collaborators of one run: each call either returns or throws;
    the two remote stages also take time. *)
Record Run : Type := {
  validatePortraits : Completion unit;
  ensureOutputDir : Completion unit;
  generateCompositeScene : Completion CompositeSceneResult;
  sceneTakes : Z;
  saveImage : Completion unit;
  generateVideo : Completion VideoGenerationResult;
  videoTakes : Z;
}.



End Pipeline.

(* ===================================================================== *)
(** ** The web server's background job: processGeneration *)
(* ===================================================================== *)

Module WebServer.

Inductive Status : Type := pending | scene | video | complete | error.

(** A value of the [generations] map. *)
Record Generation : Type := {
  gen_status : Status;
  progress : string;
  scenePath : option string;
  videoPath : option string;
  gen_error : option string;
}.

(** The optional third argument of [update]. *)
Record Extra : Type := {
  x_scenePath : option string;
  x_videoPath : option string;
  x_error : option string;
}.

Definition noExtra : Extra :=
  {| x_scenePath := None; x_videoPath := None; x_error := None |}.

(** [generations.set(id, { status, progress, ...extra })]: the record
    under [id] is replaced, not merged. *)
Definition update (id : string) (s : Status) (progress : string) (extra : Extra)
    (generations : gmap string Generation) : gmap string Generation :=
  <[id := {| gen_status := s; progress := progress;
             scenePath := x_scenePath extra;
             videoPath := x_videoPath extra;
             gen_error := x_error extra |}]> generations.

Record Part : Type := { inlineData : option string }.
Record Operation : Type := { done : bool; generatedVideo : option string }.

(** The collaborators of one background job. *)
Record Run : Type := {
  readPortraitA : Completion string;
  readPortraitB : Completion string;
  generateContent : Completion (option (list Part));
  writeScene : Completion unit;
  generateVideos : Completion Operation;
  getVideosOperation : list (Completion Operation);
  download : Completion unit;
  unlinkPortraits : Completion unit;
}.

(** The loop over [candidate.content.parts] that takes the first inline image. *)
Fixpoint firstInlineData (parts : list Part) : option string :=
  match parts with
  | [] => None
  | p :: rest => if truthy (inlineData p) then inlineData p else firstInlineData rest
  end.

Definition maxAttempts : nat := 60.

(** [while (!operation.done && attempts < maxAttempts)]; [todo] is
    [maxAttempts - attempts]. [None] when the script of poll answers
    runs out. *)
Fixpoint pollOperation (id : string) (todo : nat) (attempts : Z)
    (operation : Operation) (answers : list (Completion Operation))
    (generations : gmap string Generation)
    : option (Completion Operation * gmap string Generation) :=
  if done operation then Some (Returned operation, generations)
  else
    match todo with
    | O => Some (Returned operation, generations)
    | S todo' =>
        let attempts' := attempts + 1 in
        let generations' :=
          update id video ("Video generating... (" +:+ num (attempts' * 10) +:+ "s elapsed)")
                 noExtra generations in
        match answers with
        | [] => None
        | Thrown m :: _ => Some (Thrown m, generations')
        | Returned operation' :: rest =>
            pollOperation id todo' attempts' operation' rest generations'
        end
    end.

(** The [catch (error)] block; [error.message || String(error)]. *)
Definition fail (id : string) (message : string)
    (generations : gmap string Generation) : gmap string Generation :=
  update id error "Generation failed"
    {| x_scenePath := None; x_videoPath := None;
       x_error := Some (if String.eqb message EmptyString then "Error" else message) |}
    generations.

(** [async function processGeneration(id, options)], from the first
    [update] on. *)
Definition processGeneration (id : string) (env : Run)
    (generations : gmap string Generation)
    : option (gmap string Generation) :=
  let g1 := update id scene "Generating composite scene..." noExtra generations in
  match readPortraitA env, readPortraitB env with
  | Thrown m, _ => Some (fail id m g1)
  | Returned _, Thrown m => Some (fail id m g1)
  | Returned _, Returned _ =>
      match generateContent env with
      | Thrown m => Some (fail id m g1)
      | Returned parts =>
          match firstInlineData (default [] parts) with
          | None => Some (fail id "Failed to generate scene image" g1)
          | Some sceneImageData =>
              match writeScene env with
              | Thrown m => Some (fail id m g1)
              | Returned _ =>
                  let sceneUrl := "/output/scene_" +:+ id +:+ ".png" in
                  let g2 := update id scene "Scene generated! Starting video generation..."
                              {| x_scenePath := Some sceneUrl; x_videoPath := None;
                                 x_error := None |} g1 in
                  let g3 := update id video "Generating video with Veo 3.1..." noExtra g2 in
                  match generateVideos env with
                  | Thrown m => Some (fail id m g3)
                  | Returned operation =>
                      match pollOperation id maxAttempts 0 operation
                              (getVideosOperation env) g3 with
                      | None => None
                      | Some (Thrown m, g4) => Some (fail id m g4)
                      | Some (Returned operation', g4) =>
                          if negb (done operation') then
                            Some (fail id "Video generation timed out" g4)
                          else if negb (truthy (generatedVideo operation')) then
                            Some (fail id "No video in response" g4)
                          else
                            match download env with
                            | Thrown m => Some (fail id m g4)
                            | Returned _ =>
                                let g5 :=
                                  update id complete "Generation complete!"
                                    {| x_scenePath := Some sceneUrl;
                                       x_videoPath := Some ("/output/video_" +:+ id +:+ ".mp4");
                                       x_error := None |} g4 in
                                match unlinkPortraits env with
                                | Thrown m => Some (fail id m g5)
                                | Returned _ => Some g5
                                end
                            end
                      end
                  end
              end
          end
      end
  end.

End WebServer.

(* ===================================================================== *)
(** ** client/src/App.jsx: handleGenerate *)
(* ===================================================================== *)

Module Client.

Inductive Status : Type := idle | generating_scene | generating_video | done | error.

Record Credits : Type := {
  startingCredits : Z;
  creditsUsed : Z;
  creditsRemaining : Z;
}.

(** The component state the handler writes. *)
Record State : Type := {
  status : Status;
  sceneImageUrl : option string;
  videoUrl : option string;
  errorMessage : option string;
  statusMessage : string;
  credits : Credits;
}.

(** A parsed reply of the server, as far as the client reads it. *)
Record ReplyJson : Type := {
  r_success : bool;
  r_error : option string;
  r_imageUrl : option string;
  r_videoUrl : option string;
  r_creditsUsed : option Z;
  r_creditsRemaining : option Z;
}.

Record Fetched : Type := { res_ok : bool; res_json : Completion ReplyJson }.

Record Run : Type := {
  sceneRes : Completion Fetched;
  videoRes : Completion Fetched;
}.

(** [if (data.creditsRemaining != null) setCredits(c => ({ ...c, ... }))]. *)
Definition updateCredits (data : ReplyJson) (c : Credits) : Credits :=
  match r_creditsRemaining data with
  | Some remaining =>
      {| startingCredits := startingCredits c;
         creditsUsed := num_or (r_creditsUsed data) (creditsUsed c);
         creditsRemaining := remaining |}
  | None => c
  end.

(** [await fetch(...)], [await res.json()] and the [!res.ok || !data.success] test. *)
Definition receive (r : Completion Fetched) (fallback : string) : Completion ReplyJson :=
  match r with
  | Thrown m => Thrown m
  | Returned res =>
      match res_json res with
      | Thrown m => Thrown m
      | Returned data =>
          if negb (res_ok res) || negb (r_success data) then
            Thrown (default fallback (or_else (r_error data) (Some fallback)))
          else Returned data
      end
  end.

(** The [catch (err)] block. *)
Definition failed (message : string) (st : State) : State :=
  {| status := error; sceneImageUrl := sceneImageUrl st; videoUrl := videoUrl st;
     errorMessage := Some message; statusMessage := EmptyString; credits := credits st |}.

(** [const handleGenerate = async () => { ... }]. *)
Definition handleGenerate (env : Run) (st : State) : State :=
  let st1 := {| status := generating_scene; sceneImageUrl := None; videoUrl := None;
                errorMessage := None;
                statusMessage := "Composing scene with NanoBanana Pro Edit...";
                credits := credits st |} in
  match receive (sceneRes env) "Scene generation failed" with
  | Thrown m => failed m st1
  | Returned sceneData =>
      let st2 := {| status := generating_video;
                    sceneImageUrl := r_imageUrl sceneData;
                    videoUrl := None;
                    errorMessage := None;
                    statusMessage := "Scene generated! Now creating video with Veo 3.1...";
                    credits := updateCredits sceneData (credits st1) |} in
      match receive (videoRes env) "Video generation failed" with
      | Thrown m => failed m st2
      | Returned videoData =>
          {| status := done;
             sceneImageUrl := sceneImageUrl st2;
             videoUrl := r_videoUrl videoData;
             errorMessage := None;
             statusMessage := "Video ready!";
             credits := updateCredits videoData (credits st2) |}
      end
  end.

End Client.

(* ===================================================================== *)
(** * Vocabulary of the statements *)
(* ===================================================================== *)

(** ** Transient failures of a call *)

(** A scene attempt fails transiently: the response has a 5xx status, or
    [fetch] rejects with an error that the [catch] block does not take for
    a client error. *)
Definition sceneTransient (t : Tick ImageGen.SceneData) : Prop :=
  match outcome t with
  | Thrown m => includes m "API error (4" = false
  | Returned r => 500 <= status r
  end.

(** The error such an attempt is observed to fail with. *)
Definition sceneError (t : Tick ImageGen.SceneData) : string :=
  match outcome t with
  | Thrown m => m
  | Returned r => "NanoBanana API error (" +:+ num (status r) +:+ "): Server error"
  end.

(** The same for an attempt to create the video task. *)
Definition createTransient (t : Tick VideoGen.CreateData) : Prop :=
  match outcome t with
  | Thrown m => includes m "error (4" = false
  | Returned r => 500 <= status r
  end.

Definition createError (t : Tick VideoGen.CreateData) : string :=
  match outcome t with
  | Thrown m => m
  | Returned r => "Veo 3.1 create error (" +:+ num (status r) +:+ "): Server error"
  end.

Definition sceneUrl : string := ImageGen.API_BASE +:+ "/v1/images/generations".
Definition createUrl : string := VideoGen.API_BASE +:+ "/video/generations".

(** The world after four attempts separated by the three backoff sleeps. *)
Definition afterFourAttempts {B} (url : string) (t1 t2 t3 t4 : Tick B) (w : World) : World :=
  fetch url t4 (sleep 30000
    (fetch url t3 (sleep 15000
      (fetch url t2 (sleep 5000
        (fetch url t1 w)))))).

(** ** Sample outcomes of scene and create requests *)

(** A world whose clock reads 0 and in which nothing has happened yet. *)
Definition world0 : World := mkWorld 0 [].

Definition sceneStatus (s : Z) (body : string) : Tick ImageGen.SceneData :=
  mkTick 0 (Returned (mkResponse s body (Thrown "Unexpected token < in JSON at position 0"))).

Definition sceneRejected (m : string) : Tick ImageGen.SceneData := mkTick 0 (Thrown m).

Definition sceneOk (u : string) (credits : option Z) : Tick ImageGen.SceneData :=
  mkTick 0 (Returned (mkResponse 200 EmptyString
    (Returned {| ImageGen.data := Some [ {| ImageGen.item_url := Some u;
                                            ImageGen.b64_json := None |} ];
                 ImageGen.images := None;
                 ImageGen.url := None;
                 ImageGen.meta :=
                   match credits with
                   | Some c => Some {| usage := Some {| credits_used := Some c |} |}
                   | None => None
                   end |}))).

Definition createStatus (s : Z) (body : string) : Tick VideoGen.CreateData :=
  mkTick 0 (Returned (mkResponse s body (Thrown "Unexpected token < in JSON at position 0"))).

Definition createRejected (m : string) : Tick VideoGen.CreateData := mkTick 0 (Thrown m).

Definition createOk (g : string) : Tick VideoGen.CreateData :=
  mkTick 0 (Returned (mkResponse 200 EmptyString (Returned {| VideoGen.id := Some g |}))).

(** ** Polling *)

Definition pollUrl (generationId : string) : string :=
  VideoGen.API_BASE +:+ "/video/generations?generation_id=" +:+ generationId.

(** The world after one iteration's sleep and poll request. *)
Definition polled (generationId : string) (t : Tick VideoGen.PollData) (w : World) : World :=
  fetch (pollUrl generationId) t (sleep VideoGen.POLL_INTERVAL_MS w).



(** The parsed body of a poll answered with a 2xx status. *)
Definition pollData (t : Tick VideoGen.PollData) : option VideoGen.PollData :=
  match outcome t with
  | Returned r =>
      if ok r then match json r with Returned d => Some d | Thrown _ => None end
      else None
  | Thrown _ => None
  end.

Definition terminal (s : option string) : Prop :=
  s = Some "completed" \/ s = Some "failed" \/ s = Some "error".

(** A poll that succeeds and reports a status other than the terminal ones. *)
Definition pending (t : Tick VideoGen.PollData) : Prop :=
  match pollData t with
  | Some d => ~ terminal (VideoGen.job_status d)
  | None => False
  end.

(** ** Sample outcomes of poll requests *)

Definition pollStatus (lat s : Z) (body : string) : Tick VideoGen.PollData :=
  mkTick lat (Returned (mkResponse s body (Thrown "Unexpected token < in JSON at position 0"))).

Definition pollRejected (lat : Z) (m : string) : Tick VideoGen.PollData := mkTick lat (Thrown m).

Definition pollReport (lat : Z) (d : VideoGen.PollData) : Tick VideoGen.PollData :=
  mkTick lat (Returned (mkResponse 200 EmptyString (Returned d))).

Definition reportPending (s : string) : VideoGen.PollData :=
  {| VideoGen.job_status := Some s; VideoGen.video := None;
     VideoGen.meta := None; VideoGen.error := None |}.

Definition reportCompleted (u : option string) (credits : option Z) : VideoGen.PollData :=
  {| VideoGen.job_status := Some "completed";
     VideoGen.video := Some {| VideoGen.video_url := u |};
     VideoGen.meta :=
       match credits with
       | Some c => Some {| usage := Some {| credits_used := Some c |} |}
       | None => None
       end;
     VideoGen.error := None |}.




(** ** The ledger *)

(** The record [saveCredits] leaves on disk. *)
Definition savedRecord (isoNow : string) (total : Z) : Server.CreditsRecord :=
  {| Server.startingCredits := Some Server.STARTING_CREDITS;
     Server.rec_creditsUsed := Some total;
     Server.rec_creditsRemaining := Some (Server.STARTING_CREDITS - total);
     Server.lastUpdated := Some isoNow |}.

Definition sceneRequest : Server.SceneRequest :=
  {| Server.portraitA := Some {| Server.mimetype := "image/png"; Server.base64 := "QQ==" |};
     Server.portraitB := Some {| Server.mimetype := "image/jpeg"; Server.base64 := "Qg==" |};
     Server.scenario := Some "Two colleagues in an office" |}.

Definition videoRequest : Server.VideoRequest :=
  {| Server.sceneImageUrl := Some "https://example/scene.png";
     Server.videoPrompt := Some "They talk";
     Server.duration := None |}.

(** ** The orchestrators *)

(** The record [processGeneration] leaves under the job id when it fails. *)
Definition errorRecord (message : string) : WebServer.Generation :=
  {| WebServer.gen_status := WebServer.error;
     WebServer.progress := "Generation failed";
     WebServer.scenePath := None;
     WebServer.videoPath := None;
     WebServer.gen_error := Some (if String.eqb message EmptyString then "Error" else message) |}.




(** A background job whose scene stage succeeds and whose second status
    query fails. *)
Definition jobRun : WebServer.Run :=
  {| WebServer.readPortraitA := Returned "A";
     WebServer.readPortraitB := Returned "B";
     WebServer.generateContent := Returned (Some [ {| WebServer.inlineData := Some "iVBORw0KGgo=" |} ]);
     WebServer.writeScene := Returned tt;
     WebServer.generateVideos := Returned {| WebServer.done := false; WebServer.generatedVideo := None |};
     WebServer.getVideosOperation :=
       [Returned {| WebServer.done := false; WebServer.generatedVideo := None |};
        Thrown "quota exceeded"];
     WebServer.download := Returned tt;
     WebServer.unlinkPortraits := Returned tt |}.

(* ===================================================================== *)
(** * Further code of the repository *)
(* ===================================================================== *)

From Stdlib Require DecimalZ.

(** ** src/utils/image.ts: validatePortraits *)

Module ImageUtils.

(** [function validatePortraits(portraitA, portraitB)]; [files] is the set
    of paths for which [fs.existsSync] is true. *)
Definition validatePortraits (files : gset string) (portraitA portraitB : string)
    : Completion unit :=
  if bool_decide (portraitA ∈ files) then
    if bool_decide (portraitB ∈ files) then Returned tt
    else Thrown ("Portrait B not found: " +:+ portraitB)
  else Thrown ("Portrait A not found: " +:+ portraitA).

End ImageUtils.

(** ** src/services/veo3.ts: Veo3Service.generateVideo *)

Module Veo3.

(** [config.pipeline], as far as the service reads it. *)
Record Config : Type := {
  pollIntervalMs : Z;
  maxWaitTimeMs : Z;
}.

(** [defaultConfig.pipeline]. *)
Definition defaultConfig : Config :=
  {| pollIntervalMs := 10000; maxWaitTimeMs := 600000 |}.

(** A long-running operation: [operation.done] and
    [operation.response?.generatedVideos?.[0]?.video]. *)
Record Operation : Type := { done : bool; video : option string }.

Record VideoGenerationResult : Type := {
  videoPath : string;
  prompt : string;
  durationMs : Z;
}.

(** One scripted call of the SDK: how long it takes and what it gives. *)
Record Call (A : Type) : Type := mkCall {
  took : Z;
  result : Completion A;
}.
Arguments mkCall {A} took result.
Arguments took {A} c.
Arguments result {A} c.

(** The collaborators of one call of the service. *)
Record Run : Type := {
  generateVideos : Call Operation;
  getVideosOperation : list (Call Operation);
  ensureOutputDir : Completion unit;
  download : Call unit;
}.

Definition elapse (ms : Z) (w : World) : World :=
  {| now := now w + ms; trace := trace w |}.

(** Rendering of [n / 1000] in a template literal, for an integer [n]
    of ordinary size: the quotient, then the decimals left of the
    remainder, if any. *)
Definition perThousand (n : Z) : string :=
  let a := Z.abs n in
  let r := a mod 1000 in
  let decimals :=
    if r =? 0 then EmptyString
    else if r mod 100 =? 0 then "." +:+ num (r / 100)
    else if r mod 10 =? 0 then
      "." +:+ num (r / 100) +:+ num (r / 10 mod 10)
    else "." +:+ num (r / 100) +:+ num (r / 10 mod 10) +:+ num (r mod 10) in
  (if n <? 0 then "-" else EmptyString) +:+ num (a / 1000) +:+ decimals.

Definition timeoutMessage (c : Config) : string :=
  "Video generation timed out after " +:+ perThousand (maxWaitTimeMs c) +:+ " seconds".

(** [while (!operation.done) { if (elapsedTime >= maxWaitTime) throw ...;
    await this.sleep(pollInterval); elapsedTime += pollInterval;
    operation = await getVideosOperation(...) }]. [None] when the script of
    answers runs out while the loop is still going. *)
Fixpoint pollUntilDone (c : Config) (elapsedTime : Z) (operation : Operation)
    (w : World) (answers : list (Call Operation))
    : option (Completion Operation * World) :=
  if done operation then Some (Returned operation, w)
  else if maxWaitTimeMs c <=? elapsedTime then Some (Thrown (timeoutMessage c), w)
  else
    match answers with
    | [] => None
    | a :: rest =>
        let w1 := elapse (took a) (sleep (pollIntervalMs c) w) in
        match result a with
        | Thrown m => Some (Thrown m, w1)
        | Returned operation' =>
            pollUntilDone c (elapsedTime + pollIntervalMs c) operation' w1 rest
        end
    end.

(** The [try] block of [generateVideo], from the call that starts the
    generation to the result; [prompt] is the prompt built before it and
    the [catch] block rethrows. *)
Definition generateVideo (c : Config) (prompt outputPath : string)
    (w : World) (env : Run) : option (Completion VideoGenerationResult * World) :=
  let startTime := now w in
  let w1 := elapse (took (generateVideos env)) w in
  match result (generateVideos env) with
  | Thrown m => Some (Thrown m, w1)
  | Returned operation =>
      match pollUntilDone c 0 operation w1 (getVideosOperation env) with
      | None => None
      | Some (Thrown m, w2) => Some (Thrown m, w2)
      | Some (Returned operation', w2) =>
          if negb (truthy (video operation')) then
            Some (Thrown "No video in generation response", w2)
          else
            match ensureOutputDir env with
            | Thrown m => Some (Thrown m, w2)
            | Returned _ =>
                let w3 := elapse (took (download env)) w2 in
                match result (download env) with
                | Thrown m => Some (Thrown m, w3)
                | Returned _ =>
                    Some (Returned {| videoPath := outputPath;
                                      prompt := prompt;
                                      durationMs := now w3 - startTime |}, w3)
                end
            end
      end
  end.

End Veo3.

(** ** The web server's job registry: /api/generate and /api/status/:id *)

Module WebApi.


Inductive Reply : Type :=
| Rejected (code : Z) (error : string)
| Started (generationId : string)          (* { generationId, status: 'started' } *)
| Status (generation : WebServer.Generation)
| NotFound.                                (* 404 { error: 'Generation not found' } *)



(** [app.get('/api/status/:id', ...)]. *)
Definition status (id : string) (generations : gmap string WebServer.Generation) : Reply :=
  match generations !! id with
  | Some generation => Status generation
  | None => NotFound
  end.

End WebApi.

(* ===================================================================== *)
(** * Vocabulary of the further statements *)
(* ===================================================================== *)

(** ** Retries *)

(** The first [k] backoff delays of the scene call. *)
Definition backoff (k : nat) : list Z := take k ImageGen.RETRY_DELAYS.

(** A 2xx scene response whose parsed body yields no image locator. *)
Definition sceneWithoutLocator (t : Tick ImageGen.SceneData) : Prop :=
  exists r d, outcome t = Returned r /\ ok r = true /\ json r = Returned d
              /\ truthy (ImageGen.extractImageUrl d) = false.

(** A 2xx create response whose parsed body holds no task id. *)
Definition createWithoutId (t : Tick VideoGen.CreateData) : Prop :=
  exists r d, outcome t = Returned r /\ ok r = true /\ json r = Returned d
              /\ truthy (VideoGen.id d) = false.

(** A 2xx scene answer whose first [data] entry is empty while [images]
    and [url] hold locators. *)
Definition sceneEmptyFirst : Tick ImageGen.SceneData :=
  mkTick 0 (Returned (mkResponse 200 EmptyString
    (Returned {| ImageGen.data := Some [ {| ImageGen.item_url := None;
                                            ImageGen.b64_json := None |} ];
                 ImageGen.images := Some [ {| ImageGen.item_url := Some "https://example/a.png";
                                              ImageGen.b64_json := None |} ];
                 ImageGen.url := Some "https://example/b.png";
                 ImageGen.meta := None |}))).

(** A 2xx create answer without a task id. *)
Definition createNoId : Tick VideoGen.CreateData :=
  mkTick 0 (Returned (mkResponse 200 EmptyString (Returned {| VideoGen.id := None |}))).

(** ** Polling *)

(** The status callbacks recorded in a trace. *)
Definition statuses (tr : list Event) : list (option string) :=
  omap (fun e => match e with EvStatus s => Some s | _ => None end) tr.

(** The time a run of polls takes: a sleep and a round trip each. *)
Definition pollTime (ps : list (Tick VideoGen.PollData)) : Z :=
  foldr (fun t acc => VideoGen.POLL_INTERVAL_MS + latency t + acc) 0 ps.

(** The world after a run of polls that each report a status and go on. *)
Fixpoint afterPolls (generationId : string) (onStatus : bool)
    (ps : list (Tick VideoGen.PollData)) (w : World) : World :=
  match ps with
  | [] => w
  | t :: rest =>
      afterPolls generationId onStatus rest
        (notify onStatus (pollData t ≫= VideoGen.job_status) (polled generationId t w))
  end.

(** A poll answered with a 2xx status whose body is not JSON, the parse
    error being one that neither test of the [catch] block singles out. *)
Definition unparsable (t : Tick VideoGen.PollData) : Prop :=
  exists r m, outcome t = Returned r /\ ok r = true /\ json r = Thrown m
              /\ includes m "poll error" && negb (includes m "server errors") = false
              /\ includes m "failed" || includes m "completed" = false.

(** Occurrence of a character in a string. *)
Fixpoint hasChar (c : Ascii.ascii) (s : string) : bool :=
  match s with
  | EmptyString => false
  | String x rest => Ascii.eqb c x || hasChar c rest
  end.

(** ** The server and its client *)

(** The JSON body of a reply as the client reads it. *)
Definition replyJson (r : Server.Reply) : Client.ReplyJson :=
  match Server.body r with
  | Server.ErrorBody e =>
      {| Client.r_success := false; Client.r_error := Some e;
         Client.r_imageUrl := None; Client.r_videoUrl := None;
         Client.r_creditsUsed := None; Client.r_creditsRemaining := None |}
  | Server.SceneBody s u c remaining =>
      {| Client.r_success := s; Client.r_error := None;
         Client.r_imageUrl := Some u; Client.r_videoUrl := None;
         Client.r_creditsUsed := Some c; Client.r_creditsRemaining := Some remaining |}
  | Server.VideoBody s u g c remaining =>
      {| Client.r_success := s; Client.r_error := None;
         Client.r_imageUrl := None; Client.r_videoUrl := Some u;
         Client.r_creditsUsed := Some c; Client.r_creditsRemaining := Some remaining |}
  | Server.CreditsBody _ c remaining =>
      {| Client.r_success := false; Client.r_error := None;
         Client.r_imageUrl := None; Client.r_videoUrl := None;
         Client.r_creditsUsed := Some c; Client.r_creditsRemaining := Some remaining |}
  end.

(** A reply that reaches the client: [res.ok] is the 2xx test on its code
    and [res.json()] gives its body. *)
Definition delivered (r : Server.Reply) : Completion Client.Fetched :=
  Returned {| Client.res_ok := (200 <=? Server.code r) && (Server.code r <=? 299);
              Client.res_json := Returned (replyJson r) |}.

(** A client state before any run. *)
Definition idleClient : Client.State :=
  {| Client.status := Client.idle; Client.sceneImageUrl := None; Client.videoUrl := None;
     Client.errorMessage := None; Client.statusMessage := EmptyString;
     Client.credits := {| Client.startingCredits := 20000000; Client.creditsUsed := 0;
                          Client.creditsRemaining := 20000000 |} |}.

(** ** The web server's job records *)

(** The record a completed job leaves. *)
Definition completeRecord (id : string) : WebServer.Generation :=
  {| WebServer.gen_status := WebServer.complete;
     WebServer.progress := "Generation complete!";
     WebServer.scenePath := Some ("/output/scene_" +:+ id +:+ ".png");
     WebServer.videoPath := Some ("/output/video_" +:+ id +:+ ".mp4");
     WebServer.gen_error := None |}.

Definition notDone (a : Completion WebServer.Operation) : Prop :=
  exists o, a = Returned o /\ WebServer.done o = false.

Definition veoNotDone (a : Veo3.Call Veo3.Operation) : Prop :=
  exists o, Veo3.result a = Returned o /\ Veo3.done o = false.


(** A background job whose video operation is never done. *)
Definition jobRunSlow : WebServer.Run :=
  {| WebServer.readPortraitA := Returned "A";
     WebServer.readPortraitB := Returned "B";
     WebServer.generateContent := Returned (Some [ {| WebServer.inlineData := Some "iVBORw0KGgo=" |} ]);
     WebServer.writeScene := Returned tt;
     WebServer.generateVideos := Returned {| WebServer.done := false; WebServer.generatedVideo := None |};
     WebServer.getVideosOperation :=
       replicate 60 (Returned {| WebServer.done := false; WebServer.generatedVideo := None |});
     WebServer.download := Returned tt;
     WebServer.unlinkPortraits := Returned tt |}.

(** A background job that produces everything and then cannot remove the
    uploaded portraits. *)
Definition jobRunCleanup : WebServer.Run :=
  {| WebServer.readPortraitA := Returned "A";
     WebServer.readPortraitB := Returned "B";
     WebServer.generateContent := Returned (Some [ {| WebServer.inlineData := Some "iVBORw0KGgo=" |} ]);
     WebServer.writeScene := Returned tt;
     WebServer.generateVideos := Returned {| WebServer.done := true; WebServer.generatedVideo := Some "files/abc" |};
     WebServer.getVideosOperation := [];
     WebServer.download := Returned tt;
     WebServer.unlinkPortraits := Thrown "EPERM: operation not permitted, unlink" |}.

(** ** The Veo service *)

(** A run of the service whose operation is not done after sixty queries. *)
Definition veoRunSlow : Veo3.Run :=
  {| Veo3.generateVideos :=
       Veo3.mkCall 2000 (Returned {| Veo3.done := false; Veo3.video := None |});
     Veo3.getVideosOperation :=
       replicate 60 (Veo3.mkCall 300 (Returned {| Veo3.done := false; Veo3.video := None |}))
       ++ [Veo3.mkCall 300 (Returned {| Veo3.done := true; Veo3.video := Some "files/abc" |})];
     Veo3.ensureOutputDir := Returned tt;
     Veo3.download := Veo3.mkCall 5000 (Returned tt) |}.



(* ===================================================================== *)
(** * Properties *)
(* ===================================================================== *)

(** ** Strings *)

Lemma append_assoc (a b c : string) : (a +:+ b) +:+ c = a +:+ (b +:+ c).
Proof.
  induction a as [|x a IH]; [reflexivity|].
  change (String x ((a +:+ b) +:+ c) = String x (a +:+ (b +:+ c))).
  now rewrite IH.
Qed.

Lemma append_cons (x : Ascii.ascii) (s t : string) :
  String x s +:+ t = String x (s +:+ t).
Proof. reflexivity. Qed.

Lemma prefix_append (n s t : string) :
  String.prefix n s = true -> String.prefix n (s +:+ t) = true.
Proof.
  revert s; induction n as [|x n IH]; intros s H.
  - now destruct (s +:+ t).
  - destruct s as [|y s]; [discriminate|].
    rewrite append_cons. simpl in *.
    destruct (Ascii.ascii_dec x y); [now apply IH | discriminate].
Qed.

Lemma includes_cons (x : Ascii.ascii) (s n : string) :
  includes (String x s) n = String.prefix n (String x s) || includes s n.
Proof. reflexivity. Qed.

Lemma includes_append_l (s t n : string) :
  includes s n = true -> includes (s +:+ t) n = true.
Proof.
  induction s as [|x s IH]; intros H.
  - simpl in H. rewrite orb_false_r in H.
    destruct n; [|discriminate]. now destruct (EmptyString +:+ t).
  - rewrite includes_cons in H. rewrite append_cons, includes_cons.
    apply orb_true_iff in H as [H|H]; apply orb_true_iff.
    + left. rewrite <- append_cons. now apply prefix_append.
    + right. now apply IH.
Qed.

(** A status code of the 4xx class renders with a leading 4. *)
Lemma four_hundreds (prefix marker : string) :
  forallb (fun k => includes (prefix +:+ num (400 + Z.of_nat k)) marker) (seq 0 100) = true ->
  forall s rest, 400 <= s <= 499 ->
    includes (prefix +:+ num s +:+ rest) marker = true.
Proof.
  intros Hall s rest Hs.
  rewrite forallb_forall in Hall.
  specialize (Hall (Z.to_nat (s - 400))).
  replace (400 + Z.of_nat (Z.to_nat (s - 400))) with s in Hall by lia.
  rewrite <- append_assoc. apply includes_append_l, Hall.
  apply in_seq. lia.
Qed.

Lemma scene_client_marker s rest : 400 <= s <= 499 ->
  includes ("NanoBanana API error (" +:+ num s +:+ rest) "API error (4" = true.
Proof. apply four_hundreds. vm_compute. reflexivity. Qed.

Lemma create_client_marker s rest : 400 <= s <= 499 ->
  includes ("Veo 3.1 create error (" +:+ num s +:+ rest) "error (4" = true.
Proof. apply four_hundreds. vm_compute. reflexivity. Qed.

(** ** Traces *)

Lemma sleeps_sleep ms w : sleeps (trace (sleep ms w)) = sleeps (trace w) ++ [ms].
Proof. unfold sleeps, sleep; simpl. now rewrite omap_app. Qed.

Lemma sleeps_fetch {B} url (t : Tick B) w :
  sleeps (trace (fetch url t w)) = sleeps (trace w).
Proof. unfold sleeps, fetch; simpl. rewrite omap_app; simpl. apply app_nil_r. Qed.

Lemma requests_sleep ms w : requests (trace (sleep ms w)) = requests (trace w).
Proof. unfold requests, sleep; simpl. rewrite omap_app; simpl. apply app_nil_r. Qed.

Lemma requests_fetch {B} url (t : Tick B) w :
  requests (trace (fetch url t w)) = requests (trace w) ++ [now w].
Proof. unfold requests, fetch; simpl. now rewrite omap_app. Qed.


Lemma now_notify b s w : now (notify b s w) = now w.
Proof. unfold notify. now destruct b. Qed.

(** ** Retry budget of the scene call and of the video create call *)

Lemma scene_retry_step todo attempt lastError w t rest :
  sceneTransient t ->
  ImageGen.retryLoop (S todo) attempt lastError w (t :: rest) =
  ImageGen.retryLoop todo (S attempt) (Some (sceneError t))
    (fetch sceneUrl t
       (if (0 <? attempt)%nat then sleep (ImageGen.retryDelay attempt) w else w))
    rest.
Proof.
  unfold sceneTransient, sceneError. intros H. cbn [ImageGen.retryLoop].
  unfold ImageGen.attemptBody.
  destruct (outcome t) as [r|m].
  - apply Z.leb_le in H. now rewrite H.
  - now rewrite H.
Qed.

Lemma create_retry_step todo attempt lastError w t rest :
  createTransient t ->
  VideoGen.createLoop (S todo) attempt lastError w (t :: rest) =
  VideoGen.createLoop todo (S attempt) (Some (createError t))
    (fetch createUrl t
       (if (0 <? attempt)%nat then sleep (VideoGen.retryDelay attempt) w else w))
    rest.
Proof.
  unfold createTransient, createError. intros H. cbn [VideoGen.createLoop].
  unfold VideoGen.createBody.
  destruct (outcome t) as [r|m].
  - apply Z.leb_le in H. now rewrite H.
  - now rewrite H.
Qed.

Lemma afterFourAttempts_sleeps {B} url (t1 t2 t3 t4 : Tick B) w :
  sleeps (trace (afterFourAttempts url t1 t2 t3 t4 w)) =
  sleeps (trace w) ++ [5000; 15000; 30000].
Proof.
  unfold afterFourAttempts.
  rewrite !sleeps_fetch, !sleeps_sleep, !sleeps_fetch, !sleeps_sleep,
          !sleeps_fetch, !sleeps_sleep, !sleeps_fetch.
  now rewrite <- !app_assoc.
Qed.

Lemma afterFourAttempts_requests {B} url (t1 t2 t3 t4 : Tick B) w :
  length (requests (trace (afterFourAttempts url t1 t2 t3 t4 w))) =
  (length (requests (trace w)) + 4)%nat.
Proof.
  unfold afterFourAttempts.
  rewrite !requests_fetch, !requests_sleep, !requests_fetch, !requests_sleep,
          !requests_fetch, !requests_sleep, !requests_fetch.
  rewrite !length_app. simpl. lia.
Qed.

(** C1. When every attempt of a scene call, or of the create step of a
    video call, fails transiently (a 5xx response, or a rejected [fetch]),
    exactly four requests are made however many more outcomes the remote
    side would have had in store, the sleeps before the second, third and
    fourth request are 5000, 15000 and 30000 ms, and the call throws the
    error of the fourth attempt. For the video call no poll request is
    made. *)
Theorem retry_budget_exhausted
    (imageA imageB scenarioPrompt sceneImageUrl videoPrompt apiKey : string)
    (duration : Z) (onStatus : bool) (w : World)
    (s1 s2 s3 s4 : Tick ImageGen.SceneData) (moreScene : list (Tick ImageGen.SceneData))
    (c1 c2 c3 c4 : Tick VideoGen.CreateData) (moreCreate : list (Tick VideoGen.CreateData))
    (polls : list (Tick VideoGen.PollData)) :
  Forall sceneTransient [s1; s2; s3; s4] ->
  Forall createTransient [c1; c2; c3; c4] ->
  let wScene := afterFourAttempts sceneUrl s1 s2 s3 s4 w in
  let wVideo := afterFourAttempts createUrl c1 c2 c3 c4 w in
  ImageGen.generateScene imageA imageB scenarioPrompt apiKey w
      (s1 :: s2 :: s3 :: s4 :: moreScene)
    = Some (Thrown (sceneError s4), wScene)
  /\ VideoGen.generateVideo sceneImageUrl videoPrompt duration apiKey onStatus w
      {| VideoGen.creates := c1 :: c2 :: c3 :: c4 :: moreCreate; VideoGen.polls := polls |}
    = Some (Thrown (createError c4), wVideo)
  /\ sleeps (trace wScene) = sleeps (trace w) ++ [5000; 15000; 30000]
  /\ sleeps (trace wVideo) = sleeps (trace w) ++ [5000; 15000; 30000]
  /\ length (requests (trace wScene)) = (length (requests (trace w)) + 4)%nat
  /\ length (requests (trace wVideo)) = (length (requests (trace w)) + 4)%nat.
Proof.
  intros Hs Hc wScene wVideo.
  repeat match goal with
         | H : Forall _ (_ :: _) |- _ => apply Forall_cons_1 in H; destruct H
         end.
  split; [|split; [|split; [|split; [|split]]]].
  - unfold ImageGen.generateScene. change (ImageGen.MAX_RETRIES + 1)%nat with 4%nat.
    rewrite !scene_retry_step by assumption. reflexivity.
  - unfold VideoGen.generateVideo. cbn [VideoGen.creates].
    change (VideoGen.MAX_RETRIES + 1)%nat with 4%nat.
    rewrite !create_retry_step by assumption. reflexivity.
  - apply afterFourAttempts_sleeps.
  - apply afterFourAttempts_sleeps.
  - apply afterFourAttempts_requests.
  - apply afterFourAttempts_requests.
Qed.

Lemma retry_budget_exhausted_witness :
  ImageGen.generateScene "data:a" "data:b" "Two colleagues in an office" "key" world0
      [sceneStatus 500 "oops"; sceneRejected "socket hang up";
       sceneStatus 503 "busy"; sceneStatus 524 "<html>"; sceneOk "https://example/scene.png" None]
    = Some (Thrown "NanoBanana API error (524): Server error",
            afterFourAttempts sceneUrl (sceneStatus 500 "oops") (sceneRejected "socket hang up")
              (sceneStatus 503 "busy") (sceneStatus 524 "<html>") world0)
  /\ VideoGen.generateVideo "https://example/scene.png" "They talk" 8 "key" true world0
      {| VideoGen.creates :=
           [createStatus 502 "bad gateway"; createStatus 500 "oops";
            createStatus 503 "busy"; createRejected "socket hang up"; createOk "job-1"];
         VideoGen.polls := [] |}
    = Some (Thrown "socket hang up",
            afterFourAttempts createUrl (createStatus 502 "bad gateway") (createStatus 500 "oops")
              (createStatus 503 "busy") (createRejected "socket hang up") world0).
Proof.
  pose proof (retry_budget_exhausted "data:a" "data:b" "Two colleagues in an office"
                "https://example/scene.png" "They talk" "key" 8 true world0
                (sceneStatus 500 "oops") (sceneRejected "socket hang up")
                (sceneStatus 503 "busy") (sceneStatus 524 "<html>")
                [sceneOk "https://example/scene.png" None]
                (createStatus 502 "bad gateway") (createStatus 500 "oops")
                (createStatus 503 "busy") (createRejected "socket hang up")
                [createOk "job-1"] []) as H.
  destruct H as (Hscene & Hvideo & _).
  - repeat constructor; vm_compute; congruence.
  - repeat constructor; vm_compute; congruence.
  - split; [exact Hscene | exact Hvideo].
Defined.

(** ** Client errors *)

(** C7. When the first attempt of a scene call, or of the create step of a
    video call, is answered with a status in 400..499, the call throws the
    client error at once: that single request is the only one made and no
    sleep takes place. *)
Theorem client_error_not_retried
    (imageA imageB scenarioPrompt sceneImageUrl videoPrompt apiKey : string)
    (duration : Z) (onStatus : bool) (w : World)
    (s : Tick ImageGen.SceneData) (rs : Response ImageGen.SceneData)
    (moreScene : list (Tick ImageGen.SceneData))
    (c : Tick VideoGen.CreateData) (rc : Response VideoGen.CreateData)
    (moreCreate : list (Tick VideoGen.CreateData))
    (polls : list (Tick VideoGen.PollData)) :
  outcome s = Returned rs -> 400 <= status rs <= 499 ->
  outcome c = Returned rc -> 400 <= status rc <= 499 ->
  ImageGen.generateScene imageA imageB scenarioPrompt apiKey w (s :: moreScene)
    = Some (Thrown ("NanoBanana API error (" +:+ num (status rs) +:+ "): " +:+ text rs),
            fetch sceneUrl s w)
  /\ VideoGen.generateVideo sceneImageUrl videoPrompt duration apiKey onStatus w
      {| VideoGen.creates := c :: moreCreate; VideoGen.polls := polls |}
    = Some (Thrown ("Veo 3.1 create error (" +:+ num (status rc) +:+ "): " +:+ text rc),
            fetch createUrl c w)
  /\ sleeps (trace (fetch sceneUrl s w)) = sleeps (trace w)
  /\ sleeps (trace (fetch createUrl c w)) = sleeps (trace w)
  /\ requests (trace (fetch sceneUrl s w)) = requests (trace w) ++ [now w]
  /\ requests (trace (fetch createUrl c w)) = requests (trace w) ++ [now w].
Proof.
  intros Hs Hrs Hc Hrc.
  assert (Hs5 : (500 <=? status rs) = false) by (apply Z.leb_gt; lia).
  assert (Hc5 : (500 <=? status rc) = false) by (apply Z.leb_gt; lia).
  assert (Hsok : ok rs = false).
  { unfold ok. apply andb_false_iff. right. apply Z.leb_gt. lia. }
  assert (Hcok : ok rc = false).
  { unfold ok. apply andb_false_iff. right. apply Z.leb_gt. lia. }
  split; [|split; [|split; [|split; [|split]]]].
  - unfold ImageGen.generateScene. cbn [Nat.add ImageGen.MAX_RETRIES ImageGen.retryLoop].
    unfold ImageGen.attemptBody. rewrite Hs, Hs5, Hsok. cbn [negb].
    now rewrite scene_client_marker.
  - unfold VideoGen.generateVideo.
    cbn [VideoGen.creates Nat.add VideoGen.MAX_RETRIES VideoGen.createLoop].
    unfold VideoGen.createBody. rewrite Hc, Hc5, Hcok. cbn [negb].
    now rewrite create_client_marker.
  - apply sleeps_fetch.
  - apply sleeps_fetch.
  - apply requests_fetch.
  - apply requests_fetch.
Qed.

Lemma client_error_not_retried_witness :
  ImageGen.generateScene "data:a" "data:b" "Two colleagues in an office" "key" world0
      [sceneStatus 400 "bad request"; sceneOk "https://example/scene.png" None]
    = Some (Thrown "NanoBanana API error (400): bad request",
            fetch sceneUrl (sceneStatus 400 "bad request") world0)
  /\ sleeps (trace (fetch sceneUrl (sceneStatus 400 "bad request") world0)) = [].
Proof.
  pose proof (client_error_not_retried "data:a" "data:b" "Two colleagues in an office"
                "https://example/scene.png" "They talk" "key" 8 true world0
                (sceneStatus 400 "bad request")
                (mkResponse 400 "bad request"
                   (Thrown "Unexpected token < in JSON at position 0"))
                [sceneOk "https://example/scene.png" None]
                (createStatus 429 "slow down")
                (mkResponse 429 "slow down"
                   (Thrown "Unexpected token < in JSON at position 0"))
                [createOk "job-1"] []) as H.
  destruct H as (Hscene & _ & Hsleep & _).
  - reflexivity.
  - simpl; lia.
  - reflexivity.
  - simpl; lia.
  - split; [exact Hscene | exact Hsleep].
Defined.

(** ** The polling loop *)


(** A 2xx poll with a parsable body reaches the status dispatch with the
    counter reset. *)
Lemma pollData_Some t d :
  pollData t = Some d ->
  exists r, outcome t = Returned r /\ (500 <=? status r) = false
            /\ ok r = true /\ json r = Returned d.
Proof.
  unfold pollData. destruct (outcome t) as [r|m]; [|discriminate].
  destruct (ok r) eqn:Hok; [|discriminate].
  destruct (json r) as [d'|m] eqn:Hj; [|discriminate].
  intros [= ->]. exists r. repeat split; try assumption.
  unfold ok in Hok. apply andb_true_iff in Hok as [_ Hok].
  apply Z.leb_le in Hok. apply Z.leb_gt. lia.
Qed.

Lemma pollBody_pending generationId onStatus n t d w :
  pollData t = Some d -> ~ terminal (VideoGen.job_status d) ->
  VideoGen.pollBody generationId onStatus n (outcome t) w =
  (VideoGen.Again 0, notify onStatus (VideoGen.job_status d) w).
Proof.
  intros Hd Hnt. apply pollData_Some in Hd as (r & Ho & H5 & Hok & Hj).
  unfold VideoGen.pollBody. rewrite Ho, H5, Hok, Hj. cbn [negb].
  unfold terminal in Hnt.
  rewrite !bool_decide_eq_false_2 by tauto. reflexivity.
Qed.


(** A rejected request is tolerated only when its message passes both
    tests of the [catch] block. The second test looks for 'failed' anywhere
    in the message, so a rejection worded like "request to <url> failed,
    reason: <cause>" is rethrown the first time it occurs. *)
Example rejection_mentioning_failed_is_rethrown :
  VideoGen.pollCatch
    "request to https://api.aimlapi.com/v2/video/generations?generation_id=job-1 failed, reason: socket hang up"
    0
  = VideoGen.Abort
      "request to https://api.aimlapi.com/v2/video/generations?generation_id=job-1 failed, reason: socket hang up".
Proof. vm_compute. reflexivity. Qed.








(** ** The wall-clock ceiling *)


Lemma polled_now generationId t w :
  now (polled generationId t w) = now w + VideoGen.POLL_INTERVAL_MS + latency t.
Proof. reflexivity. Qed.






(** ** The credit ledger *)



(** What a handled scene request amounts to. *)
Lemma generateSceneHandler_inv st req isoNow w script st' reply w' :
  Server.generateSceneHandler st req isoNow w script = Some (st', reply, w') ->
  (st' = st /\ Server.presentedRemaining reply = None)
  \/ (exists result,
        st' = Server.charge (ImageGen.creditsUsed result) isoNow st
        /\ reply = {| Server.code := 200;
                      Server.body :=
                        Server.SceneBody true (ImageGen.imageUrl result)
                          (ImageGen.creditsUsed result)
                          (Server.STARTING_CREDITS - Server.creditsUsedTotal st') |}).
Proof.
  unfold Server.generateSceneHandler. intros H.
  repeat case_match; try discriminate; simplify_eq; eauto.
Qed.

Lemma generateVideoHandler_inv st req isoNow w script st' reply w' :
  Server.generateVideoHandler st req isoNow w script = Some (st', reply, w') ->
  (st' = st /\ Server.presentedRemaining reply = None)
  \/ (exists result,
        st' = Server.charge (VideoGen.creditsUsed result) isoNow st
        /\ reply = {| Server.code := 200;
                      Server.body :=
                        Server.VideoBody true (VideoGen.videoUrl result)
                          (VideoGen.generationId result)
                          (VideoGen.creditsUsed result)
                          (Server.STARTING_CREDITS - Server.creditsUsedTotal st') |}).
Proof.
  unfold Server.generateVideoHandler. intros H.
  repeat case_match; try discriminate; simplify_eq; eauto.
Qed.

(** C3, as the code has it. The remaining credits shown by
    [GET /api/credits], by the success replies of both generation
    endpoints and in the record written to disk are the plain difference
    [STARTING_CREDITS - creditsUsedTotal], with no lower bound: the value is
    non-negative as long as the consumed total does not exceed the starting
    balance, and negative beyond. *)
Theorem remaining_is_plain_difference (st : Server.State) :
  Server.presentedRemaining (Server.creditsHandler st)
    = Some (Server.STARTING_CREDITS - Server.creditsUsedTotal st)
  /\ (forall req isoNow w script st' reply w' remaining,
        Server.generateSceneHandler st req isoNow w script = Some (st', reply, w') ->
        Server.presentedRemaining reply = Some remaining ->
        remaining = Server.STARTING_CREDITS - Server.creditsUsedTotal st')
  /\ (forall req isoNow w script st' reply w' remaining,
        Server.generateVideoHandler st req isoNow w script = Some (st', reply, w') ->
        Server.presentedRemaining reply = Some remaining ->
        remaining = Server.STARTING_CREDITS - Server.creditsUsedTotal st')
  /\ (forall isoNow,
        Server.creditsFile (Server.saveCredits isoNow st)
        = Server.JsonObject (savedRecord isoNow (Server.creditsUsedTotal st)))
  /\ (0 <= Server.STARTING_CREDITS - Server.creditsUsedTotal st
      <-> Server.creditsUsedTotal st <= 20000000).
Proof.
  split; [reflexivity|]. split; [|split; [|split]].
  - intros req isoNow w script st' reply w' remaining H Hrem.
    apply generateSceneHandler_inv in H as [[_ Hnone]|(result & _ & ->)].
    + congruence.
    + injection Hrem as <-. reflexivity.
  - intros req isoNow w script st' reply w' remaining H Hrem.
    apply generateVideoHandler_inv in H as [[_ Hnone]|(result & _ & ->)].
    + congruence.
    + injection Hrem as <-. reflexivity.
  - reflexivity.
  - unfold Server.STARTING_CREDITS. lia.
Qed.

Lemma remaining_is_plain_difference_witness :
  19999000
  = Server.STARTING_CREDITS
    - Server.creditsUsedTotal
        (Server.charge 1000 "2026-01-01T00:00:00.000Z" (Server.start "key" Server.Missing)).
Proof.
  apply (proj1 (proj2 (remaining_is_plain_difference (Server.start "key" Server.Missing)))
           sceneRequest "2026-01-01T00:00:00.000Z" world0
           [sceneOk "https://example/scene.png" (Some 1000)]
           (Server.charge 1000 "2026-01-01T00:00:00.000Z" (Server.start "key" Server.Missing))
           {| Server.code := 200;
              Server.body := Server.SceneBody true "https://example/scene.png" 1000 19999000 |}
           (fetch sceneUrl (sceneOk "https://example/scene.png" (Some 1000)) world0)).
  - vm_compute. reflexivity.
  - reflexivity.
Defined.

(** C3 as claimed fails. A server started without a credits file handles
    one scene request whose response reports 20,000,001 credits: the state
    reached has consumed more than the starting balance, and the success
    reply, the record on disk and [GET /api/credits] all show -1. *)
Lemma remaining_goes_negative :
  exists st' reply w',
    Server.generateSceneHandler (Server.start "key" Server.Missing) sceneRequest
      "2026-01-01T00:00:00.000Z" world0
      [sceneOk "https://example/scene.png" (Some 20000001)]
    = Some (st', reply, w')
    /\ Server.reachable st'
    /\ Server.creditsUsedTotal st' = 20000001
    /\ Server.presentedRemaining reply = Some (-1)
    /\ Server.creditsFile st'
       = Server.JsonObject (savedRecord "2026-01-01T00:00:00.000Z" 20000001)
    /\ Server.rec_creditsRemaining (savedRecord "2026-01-01T00:00:00.000Z" 20000001)
       = Some (-1)
    /\ Server.presentedRemaining (Server.creditsHandler st') = Some (-1).
Proof.
  eexists _, _, _.
  split; [vm_compute; reflexivity|].
  split.
  - eapply (Server.reach_scene (Server.start "key" Server.Missing) sceneRequest
              "2026-01-01T00:00:00.000Z" world0
              [sceneOk "https://example/scene.png" (Some 20000001)]).
    + apply Server.reach_start.
    + vm_compute. reflexivity.
  - repeat split.
Qed.



(** ** Calls that report no credits *)

Lemma sceneAttempt_credits resp d r :
  json resp = Returned d ->
  ImageGen.attemptBody (Returned resp) = ImageGen.Success r ->
  ImageGen.creditsUsed r = num_or (meta_credits (ImageGen.meta d)) 0.
Proof.
  unfold ImageGen.attemptBody. intros Hj H. rewrite Hj in H.
  repeat case_match; try discriminate. now simplify_eq.
Qed.

Lemma pollCatch_not_finished m n r : VideoGen.pollCatch m n <> VideoGen.Finished r.
Proof. unfold VideoGen.pollCatch. repeat case_match; discriminate. Qed.

Lemma pollBody_credits generationId onStatus n resp d w r w' :
  json resp = Returned d ->
  VideoGen.pollBody generationId onStatus n (Returned resp) w = (VideoGen.Finished r, w') ->
  VideoGen.creditsUsed r = num_or (meta_credits (VideoGen.meta d)) 0.
Proof.
  unfold VideoGen.pollBody. intros Hj H. rewrite Hj in H.
  repeat case_match; simplify_eq; try reflexivity;
    match goal with
    | H : VideoGen.pollCatch _ _ = VideoGen.Finished _ |- _ =>
        now apply pollCatch_not_finished in H
    end.
Qed.

(** C10. When a generation call succeeds and reports zero credits, the
    handler leaves the whole server state as it was (same consumed total,
    same file on disk, no write) and still replies 200 with [success: true],
    [creditsUsed: 0] and the unchanged remaining balance. A response that
    carries no usage metadata is such a call: its result has zero credits. *)
Theorem zero_credit_success_leaves_ledger (st : Server.State) (isoNow : string) (w : World) :
  (forall req a b script result w',
     Server.portraitA req = Some a -> Server.portraitB req = Some b ->
     truthy (Server.scenario req) = true ->
     ImageGen.generateScene (Server.dataUri a) (Server.dataUri b)
       (default EmptyString (Server.scenario req)) (Server.API_KEY st) w script
     = Some (Returned result, w') ->
     ImageGen.creditsUsed result = 0 ->
     Server.generateSceneHandler st req isoNow w script
     = Some (st,
             {| Server.code := 200;
                Server.body := Server.SceneBody true (ImageGen.imageUrl result) 0
                                 (Server.STARTING_CREDITS - Server.creditsUsedTotal st) |},
             w'))
  /\ (forall req script result w',
     truthy (Server.sceneImageUrl req) = true ->
     truthy (Server.videoPrompt req) = true ->
     VideoGen.generateVideo (default EmptyString (Server.sceneImageUrl req))
       (default EmptyString (Server.videoPrompt req)) (default 8 (Server.duration req))
       (Server.API_KEY st) true w script
     = Some (Returned result, w') ->
     VideoGen.creditsUsed result = 0 ->
     Server.generateVideoHandler st req isoNow w script
     = Some (st,
             {| Server.code := 200;
                Server.body := Server.VideoBody true (VideoGen.videoUrl result)
                                 (VideoGen.generationId result) 0
                                 (Server.STARTING_CREDITS - Server.creditsUsedTotal st) |},
             w'))
  /\ (forall resp d r,
     json resp = Returned d -> meta_credits (ImageGen.meta d) = None ->
     ImageGen.attemptBody (Returned resp) = ImageGen.Success r ->
     ImageGen.creditsUsed r = 0)
  /\ (forall generationId onStatus n resp d w0 r w',
     json resp = Returned d -> meta_credits (VideoGen.meta d) = None ->
     VideoGen.pollBody generationId onStatus n (Returned resp) w0 = (VideoGen.Finished r, w') ->
     VideoGen.creditsUsed r = 0).
Proof.
  split; [|split; [|split]].
  - intros req a b script result w' Ha Hb Hs Hrun Hzero.
    unfold Server.generateSceneHandler. rewrite Ha, Hb, Hs. cbn [negb].
    rewrite Hrun. unfold Server.charge. rewrite Hzero. reflexivity.
  - intros req script result w' Hu Hp Hrun Hzero.
    unfold Server.generateVideoHandler. rewrite Hu, Hp. cbn [negb].
    rewrite Hrun. unfold Server.charge. rewrite Hzero. reflexivity.
  - intros resp d r Hj Hnone H.
    rewrite (sceneAttempt_credits resp d r Hj H), Hnone. reflexivity.
  - intros generationId onStatus n resp d w0 r w' Hj Hnone H.
    rewrite (pollBody_credits _ _ _ _ _ _ _ _ Hj H), Hnone. reflexivity.
Qed.

Lemma zero_credit_success_leaves_ledger_witness :
  Server.generateSceneHandler (Server.start "key" Server.Missing) sceneRequest
    "2026-01-01T00:00:00.000Z" world0 [sceneOk "https://example/scene.png" None]
  = Some (Server.start "key" Server.Missing,
          {| Server.code := 200;
             Server.body := Server.SceneBody true "https://example/scene.png" 0 20000000 |},
          fetch sceneUrl (sceneOk "https://example/scene.png" None) world0)
  /\ Server.generateVideoHandler (Server.start "key" Server.Missing) videoRequest
       "2026-01-01T00:00:00.000Z" world0
       {| VideoGen.creates := [createOk "job-1"];
          VideoGen.polls :=
            [pollReport 0 (reportCompleted (Some "https://example/video.mp4") None)] |}
     = Some (Server.start "key" Server.Missing,
             {| Server.code := 200;
                Server.body := Server.VideoBody true "https://example/video.mp4" "job-1"
                                 0 20000000 |},
             notify true (Some "completed")
               (polled "job-1"
                  (pollReport 0 (reportCompleted (Some "https://example/video.mp4") None))
                  (notify true (Some "queued") (fetch createUrl (createOk "job-1") world0)))).
Proof.
  split.
  - apply (proj1 (zero_credit_success_leaves_ledger (Server.start "key" Server.Missing)
                    "2026-01-01T00:00:00.000Z" world0)
             sceneRequest
             {| Server.mimetype := "image/png"; Server.base64 := "QQ==" |}
             {| Server.mimetype := "image/jpeg"; Server.base64 := "Qg==" |}
             [sceneOk "https://example/scene.png" None]
             {| ImageGen.imageUrl := "https://example/scene.png"; ImageGen.creditsUsed := 0 |}
             (fetch sceneUrl (sceneOk "https://example/scene.png" None) world0));
      reflexivity.
  - apply (proj1 (proj2 (zero_credit_success_leaves_ledger (Server.start "key" Server.Missing)
                    "2026-01-01T00:00:00.000Z" world0))
             videoRequest
             {| VideoGen.creates := [createOk "job-1"];
                VideoGen.polls :=
                  [pollReport 0 (reportCompleted (Some "https://example/video.mp4") None)] |}
             {| VideoGen.videoUrl := "https://example/video.mp4";
                VideoGen.generationId := "job-1";
                VideoGen.creditsUsed := 0 |}
             (notify true (Some "completed")
               (polled "job-1"
                  (pollReport 0 (reportCompleted (Some "https://example/video.mp4") None))
                  (notify true (Some "queued") (fetch createUrl (createOk "job-1") world0)))));
      reflexivity.
Defined.

(** ** Orchestration: a video failure after a scene success *)

Lemma fail_lookup id m (generations : gmap string WebServer.Generation) :
  WebServer.fail id m generations !! id = Some (errorRecord m).
Proof. unfold WebServer.fail, WebServer.update. apply lookup_insert_eq. Qed.




(* ===================================================================== *)
(** * Further properties *)
(* ===================================================================== *)

(** ** Retries that end well, and retries of empty answers *)

(** X1. A scene call whose first [k <= 3] attempts fail transiently and
    whose next attempt succeeds returns the result of that attempt: it has
    made [k + 1] requests and slept the first [k] backoff delays, and later
    outcomes of the remote side play no part. *)
Theorem scene_succeeds_after_retries
    (imageA imageB scenarioPrompt apiKey : string) (w : World)
    (fails : list (Tick ImageGen.SceneData)) (t : Tick ImageGen.SceneData)
    (r : ImageGen.SceneResult) (rest : list (Tick ImageGen.SceneData)) :
  (length fails <= 3)%nat ->
  Forall sceneTransient fails ->
  ImageGen.attemptBody (outcome t) = ImageGen.Success r ->
  exists w',
    ImageGen.generateScene imageA imageB scenarioPrompt apiKey w (fails ++ t :: rest)
    = Some (Returned r, w')
    /\ sleeps (trace w') = sleeps (trace w) ++ backoff (length fails)
    /\ length (requests (trace w')) = (length (requests (trace w)) + length fails + 1)%nat.
Proof.
  intros Hlen Hfails Hok.
  unfold ImageGen.generateScene. change (ImageGen.MAX_RETRIES + 1)%nat with 4%nat.
  destruct fails as [|f1 [|f2 [|f3 [|f4 more]]]]; cbn [length] in Hlen; try lia;
    repeat match goal with
           | H : Forall _ (_ :: _) |- _ => apply Forall_cons_1 in H; destruct H
           end;
    cbn [app]; rewrite ?scene_retry_step by assumption;
    cbn [ImageGen.retryLoop]; rewrite Hok; eexists; (split; [reflexivity|]);
    rewrite ?sleeps_fetch, ?sleeps_sleep, ?sleeps_fetch, ?sleeps_sleep,
            ?sleeps_fetch, ?sleeps_sleep, ?sleeps_fetch,
            ?requests_fetch, ?requests_sleep, ?requests_fetch, ?requests_sleep,
            ?requests_fetch, ?requests_sleep, ?requests_fetch;
    cbn [Nat.ltb Nat.leb]; rewrite ?sleeps_fetch, ?sleeps_sleep, ?requests_fetch, ?requests_sleep,
            ?sleeps_fetch, ?sleeps_sleep, ?requests_fetch, ?requests_sleep,
            ?sleeps_fetch, ?sleeps_sleep, ?requests_fetch, ?requests_sleep,
            ?sleeps_fetch, ?requests_fetch;
    rewrite ?length_app, <- ?app_assoc; cbn; (split; [rewrite ?app_nil_r; reflexivity | lia]).
Qed.

Lemma scene_succeeds_after_retries_witness :
  exists w',
    ImageGen.generateScene "data:a" "data:b" "Two colleagues in an office" "key" world0
      ([sceneStatus 503 "busy"; sceneRejected "socket hang up"]
       ++ sceneOk "https://example/scene.png" (Some 120) :: [sceneStatus 500 "oops"])
    = Some (Returned {| ImageGen.imageUrl := "https://example/scene.png";
                        ImageGen.creditsUsed := 120 |}, w')
    /\ sleeps (trace w') = [5000; 15000].
Proof.
  destruct (scene_succeeds_after_retries "data:a" "data:b" "Two colleagues in an office"
              "key" world0 [sceneStatus 503 "busy"; sceneRejected "socket hang up"]
              (sceneOk "https://example/scene.png" (Some 120))
              {| ImageGen.imageUrl := "https://example/scene.png"; ImageGen.creditsUsed := 120 |}
              [sceneStatus 500 "oops"])
    as (w' & Hrun & Hsleeps & _).
  - simpl. lia.
  - repeat constructor; vm_compute; congruence.
  - reflexivity.
  - exists w'. split; [exact Hrun | exact Hsleeps].
Defined.

Lemma ok_below_500 {B} (r : Response B) : ok r = true -> (500 <=? status r) = false.
Proof.
  unfold ok. intros H. apply andb_true_iff in H as [_ H].
  apply Z.leb_le in H. apply Z.leb_gt. lia.
Qed.

Lemma scene_empty_step todo attempt lastError w t rest :
  sceneWithoutLocator t ->
  ImageGen.retryLoop (S todo) attempt lastError w (t :: rest) =
  ImageGen.retryLoop todo (S attempt) (Some "No image URL found in API response")
    (fetch sceneUrl t
       (if (0 <? attempt)%nat then sleep (ImageGen.retryDelay attempt) w else w))
    rest.
Proof.
  intros (r & d & Ho & Hok & Hj & Hnone).
  cbn [ImageGen.retryLoop]. unfold ImageGen.attemptBody.
  rewrite Ho, (ok_below_500 r Hok), Hok, Hj. cbn [negb].
  destruct (ImageGen.extractImageUrl d) as [u|]; [rewrite Hnone|]; reflexivity.
Qed.

Lemma create_empty_step todo attempt lastError w t rest :
  createWithoutId t ->
  VideoGen.createLoop (S todo) attempt lastError w (t :: rest) =
  VideoGen.createLoop todo (S attempt) (Some "No generation ID received from Veo 3.1 API")
    (fetch createUrl t
       (if (0 <? attempt)%nat then sleep (VideoGen.retryDelay attempt) w else w))
    rest.
Proof.
  intros (r & d & Ho & Hok & Hj & Hnone).
  cbn [VideoGen.createLoop]. unfold VideoGen.createBody.
  rewrite Ho, (ok_below_500 r Hok), Hok, Hj. cbn [negb].
  destruct (VideoGen.id d) as [g|]; [rewrite Hnone|]; reflexivity.
Qed.

(** X2. A 2xx answer that lacks what the call is after is retried like a
    transient failure, each retry being a new remote request: four scene
    answers without an image locator end the call with 'No image URL found
    in API response', four create answers without a task id with 'No
    generation ID received from Veo 3.1 API', after the usual three
    backoff sleeps. The locator is looked for in the first shape present
    only: when [data[0]] exists and has neither [url] nor [b64_json], the
    answer counts as empty whatever [images] and [url] hold. *)
Theorem empty_answers_are_retried
    (imageA imageB scenarioPrompt sceneImageUrl videoPrompt apiKey : string)
    (duration : Z) (onStatus : bool) (w : World)
    (s1 s2 s3 s4 : Tick ImageGen.SceneData) (moreScene : list (Tick ImageGen.SceneData))
    (c1 c2 c3 c4 : Tick VideoGen.CreateData) (moreCreate : list (Tick VideoGen.CreateData))
    (polls : list (Tick VideoGen.PollData)) :
  Forall sceneWithoutLocator [s1; s2; s3; s4] ->
  Forall createWithoutId [c1; c2; c3; c4] ->
  ImageGen.generateScene imageA imageB scenarioPrompt apiKey w
      (s1 :: s2 :: s3 :: s4 :: moreScene)
    = Some (Thrown "No image URL found in API response",
            afterFourAttempts sceneUrl s1 s2 s3 s4 w)
  /\ VideoGen.generateVideo sceneImageUrl videoPrompt duration apiKey onStatus w
      {| VideoGen.creates := c1 :: c2 :: c3 :: c4 :: moreCreate; VideoGen.polls := polls |}
    = Some (Thrown "No generation ID received from Veo 3.1 API",
            afterFourAttempts createUrl c1 c2 c3 c4 w)
  /\ (forall d first more,
        ImageGen.data d = Some (first :: more) ->
        truthy (ImageGen.item_url first) = false ->
        truthy (ImageGen.b64_json first) = false ->
        truthy (ImageGen.extractImageUrl d) = false).
Proof.
  intros Hs Hc.
  repeat match goal with
         | H : Forall _ (_ :: _) |- _ => apply Forall_cons_1 in H; destruct H
         end.
  split; [|split].
  - unfold ImageGen.generateScene. change (ImageGen.MAX_RETRIES + 1)%nat with 4%nat.
    rewrite !scene_empty_step by assumption. reflexivity.
  - unfold VideoGen.generateVideo. cbn [VideoGen.creates].
    change (VideoGen.MAX_RETRIES + 1)%nat with 4%nat.
    rewrite !create_empty_step by assumption. reflexivity.
  - intros d first more Hd Hu Hb. unfold ImageGen.extractImageUrl.
    rewrite Hd. cbn. unfold or_else. now rewrite Hu.
Qed.

Lemma empty_answers_are_retried_witness :
  ImageGen.generateScene "data:a" "data:b" "Two colleagues in an office" "key" world0
    [sceneEmptyFirst; sceneEmptyFirst; sceneEmptyFirst; sceneEmptyFirst]
  = Some (Thrown "No image URL found in API response",
          afterFourAttempts sceneUrl sceneEmptyFirst sceneEmptyFirst sceneEmptyFirst
            sceneEmptyFirst world0).
Proof.
  refine (proj1 (empty_answers_are_retried "data:a" "data:b" "Two colleagues in an office"
            "https://example/scene.png" "They talk" "key" 8 true world0
            sceneEmptyFirst sceneEmptyFirst sceneEmptyFirst sceneEmptyFirst []
            createNoId createNoId createNoId createNoId [] [] _ _)).
  - repeat constructor; do 2 eexists; repeat split; reflexivity.
  - repeat constructor; do 2 eexists; repeat split; reflexivity.
Defined.

(** ** A video call that ends well *)

Lemma sleeps_notify b s w : sleeps (trace (notify b s w)) = sleeps (trace w).
Proof.
  unfold sleeps, notify. destruct b; simpl; [|reflexivity].
  rewrite omap_app; simpl. apply app_nil_r.
Qed.

Lemma statuses_notify b s w :
  statuses (trace (notify b s w)) = statuses (trace w) ++ (if b then [s] else []).
Proof.
  unfold statuses, notify. destruct b; simpl; [|now rewrite app_nil_r].
  now rewrite omap_app.
Qed.

Lemma statuses_fetch {B} url (t : Tick B) w :
  statuses (trace (fetch url t w)) = statuses (trace w).
Proof. unfold statuses, fetch; simpl. rewrite omap_app; simpl. apply app_nil_r. Qed.

Lemma statuses_sleep ms w : statuses (trace (sleep ms w)) = statuses (trace w).
Proof. unfold statuses, sleep; simpl. rewrite omap_app; simpl. apply app_nil_r. Qed.

Lemma statuses_polled generationId t w :
  statuses (trace (polled generationId t w)) = statuses (trace w).
Proof. unfold polled. now rewrite statuses_fetch, statuses_sleep. Qed.

Lemma sleeps_polled generationId t w :
  sleeps (trace (polled generationId t w)) = sleeps (trace w) ++ [VideoGen.POLL_INTERVAL_MS].
Proof. unfold polled. now rewrite sleeps_fetch, sleeps_sleep. Qed.

Lemma afterPolls_now generationId onStatus ps :
  forall w, now (afterPolls generationId onStatus ps w) = now w + pollTime ps.
Proof.
  induction ps as [|t ps IH]; intros w; cbn [afterPolls pollTime foldr]; [lia|].
  rewrite IH, now_notify, polled_now. fold (pollTime ps). lia.
Qed.

Lemma afterPolls_sleeps generationId onStatus ps :
  forall w, sleeps (trace (afterPolls generationId onStatus ps w))
            = sleeps (trace w) ++ replicate (length ps) VideoGen.POLL_INTERVAL_MS.
Proof.
  induction ps as [|t ps IH]; intros w; cbn [afterPolls length replicate].
  - now rewrite app_nil_r.
  - rewrite IH, sleeps_notify, sleeps_polled, <- app_assoc. reflexivity.
Qed.

Lemma afterPolls_statuses generationId onStatus ps :
  forall w, statuses (trace (afterPolls generationId onStatus ps w))
            = statuses (trace w)
              ++ (if onStatus
                  then map (fun t => pollData t ≫= VideoGen.job_status) ps
                  else []).
Proof.
  induction ps as [|t ps IH]; intros w; cbn [afterPolls map].
  - destruct onStatus; now rewrite app_nil_r.
  - rewrite IH, statuses_notify, statuses_polled, <- app_assoc.
    destruct onStatus; reflexivity.
Qed.

Lemma pollTime_nonneg ps : Forall (fun t => 0 <= latency t) ps -> 0 <= pollTime ps.
Proof.
  induction 1 as [|t ps Ht _ IH]; cbn [pollTime foldr]; [lia|].
  fold (pollTime ps). unfold VideoGen.POLL_INTERVAL_MS. lia.
Qed.

(** A run of pending polls that fits below the ceiling is polled through. *)
Lemma pollLoop_through_pending generationId onStatus startTime ps :
  forall w n more,
    Forall pending ps ->
    Forall (fun t => 0 <= latency t) ps ->
    now w - startTime + pollTime ps < VideoGen.TIMEOUT_MS ->
    exists n',
      VideoGen.pollLoop generationId onStatus startTime n w (ps ++ more)
      = VideoGen.pollLoop generationId onStatus startTime n'
          (afterPolls generationId onStatus ps w) more.
Proof.
  induction ps as [|t ps IH]; intros w n more Hp Hlat Htime.
  - exists n. reflexivity.
  - apply Forall_cons_1 in Hp as [Hpt Hp]. apply Forall_cons_1 in Hlat as [Hlt Hlat].
    cbn [pollTime foldr] in Htime. fold (pollTime ps) in Htime.
    pose proof (pollTime_nonneg ps Hlat) as Hnn.
    unfold pending in Hpt. destruct (pollData t) as [d|] eqn:Hd; [|contradiction].
    cbn [app VideoGen.pollLoop afterPolls].
    replace (now w - startTime <? VideoGen.TIMEOUT_MS) with true
      by (symmetry; apply Z.ltb_lt; unfold VideoGen.POLL_INTERVAL_MS in *; lia).
    fold (pollUrl generationId). fold (polled generationId t w).
    rewrite (pollBody_pending _ _ _ _ d) by assumption.
    rewrite Hd. cbn [mbind option_bind].
    apply IH; try assumption.
    rewrite now_notify, polled_now. lia.
Qed.

Lemma pollBody_completed generationId onStatus n t d u w :
  pollData t = Some d ->
  VideoGen.job_status d = Some "completed" ->
  VideoGen.video d ≫= VideoGen.video_url = Some u -> u <> EmptyString ->
  VideoGen.pollBody generationId onStatus n (outcome t) w
  = (VideoGen.Finished {| VideoGen.videoUrl := u;
                          VideoGen.generationId := generationId;
                          VideoGen.creditsUsed := num_or (meta_credits (VideoGen.meta d)) 0 |},
     notify onStatus (Some "completed") w).
Proof.
  intros Hd Hst Hu Hne. apply pollData_Some in Hd as (r & Ho & H5 & Hok & Hj).
  unfold VideoGen.pollBody. rewrite Ho, H5, Hok, Hj, Hst, Hu. cbn [negb].
  rewrite bool_decide_eq_true_2 by reflexivity.
  replace (truthy (Some u)) with true; [reflexivity|].
  unfold truthy. symmetry. apply negb_true_iff. now apply String.eqb_neq.
Qed.

(** X3. A video call whose create request is answered with a task id, whose
    polls then report non-terminal statuses and fit below the ceiling, and
    whose next poll reports 'completed' with a video URL, returns that URL
    with the task id and the credits reported: it has slept the poll
    interval once per poll, and the status callback, when given, has seen
    'queued', then each polled status in order, then 'completed'. *)
Theorem video_succeeds_after_pending
    (sceneImageUrl videoPrompt apiKey : string) (duration : Z) (onStatus : bool)
    (w : World) (c : Tick VideoGen.CreateData) (g : string)
    (moreCreate : list (Tick VideoGen.CreateData))
    (ps : list (Tick VideoGen.PollData)) (t : Tick VideoGen.PollData)
    (d : VideoGen.PollData) (u : string) (rest : list (Tick VideoGen.PollData)) :
  VideoGen.createBody (outcome c) = VideoGen.Created g ->
  Forall pending ps ->
  Forall (fun p => 0 <= latency p) ps ->
  pollTime ps < VideoGen.TIMEOUT_MS ->
  pollData t = Some d ->
  VideoGen.job_status d = Some "completed" ->
  VideoGen.video d ≫= VideoGen.video_url = Some u -> u <> EmptyString ->
  let w1 := notify onStatus (Some "queued") (fetch createUrl c w) in
  let w' := notify onStatus (Some "completed") (polled g t (afterPolls g onStatus ps w1)) in
  VideoGen.generateVideo sceneImageUrl videoPrompt duration apiKey onStatus w
    {| VideoGen.creates := c :: moreCreate; VideoGen.polls := ps ++ t :: rest |}
  = Some (Returned {| VideoGen.videoUrl := u;
                      VideoGen.generationId := g;
                      VideoGen.creditsUsed := num_or (meta_credits (VideoGen.meta d)) 0 |},
          w')
  /\ sleeps (trace w')
     = sleeps (trace w) ++ replicate (S (length ps)) VideoGen.POLL_INTERVAL_MS
  /\ statuses (trace w')
     = statuses (trace w)
       ++ (if onStatus
           then Some "queued" :: map (fun p => pollData p ≫= VideoGen.job_status) ps
                ++ [Some "completed"]
           else []).
Proof.
  intros Hc Hp Hlat Htime Hd Hst Hu Hne w1 w'.
  split; [|split].
  - unfold VideoGen.generateVideo.
    cbn [VideoGen.creates VideoGen.polls Nat.add VideoGen.MAX_RETRIES VideoGen.createLoop].
    rewrite Hc. cbn [Nat.ltb Nat.leb]. fold createUrl. fold w1.
    destruct (pollLoop_through_pending g onStatus (now w1) ps w1 0 (t :: rest) Hp Hlat)
      as [n' ->]; [lia|].
    cbn [VideoGen.pollLoop]. rewrite afterPolls_now.
    replace (now w1 + pollTime ps - now w1 <? VideoGen.TIMEOUT_MS) with true
      by (symmetry; apply Z.ltb_lt; lia).
    fold (pollUrl g). fold (polled g t (afterPolls g onStatus ps w1)).
    rewrite (pollBody_completed _ _ _ _ d u) by assumption. reflexivity.
  - subst w' w1.
    rewrite sleeps_notify, sleeps_polled, afterPolls_sleeps, sleeps_notify, sleeps_fetch.
    rewrite <- app_assoc. f_equal.
    replace (S (length ps)) with (length ps + 1)%nat by lia.
    now rewrite replicate_add.
  - subst w' w1.
    rewrite statuses_notify, statuses_polled, afterPolls_statuses, statuses_notify,
            statuses_fetch.
    destruct onStatus; rewrite <- !app_assoc; [reflexivity | now rewrite !app_nil_r].
Qed.

Lemma video_succeeds_after_pending_witness :
  exists w',
    VideoGen.generateVideo "https://example/scene.png" "They talk" 8 "key" true world0
      {| VideoGen.creates := [createOk "job-1"];
         VideoGen.polls :=
           [pollReport 500 (reportPending "queued"); pollReport 500 (reportPending "generating")]
           ++ pollReport 500 (reportCompleted (Some "https://example/video.mp4") (Some 250))
              :: [] |}
    = Some (Returned {| VideoGen.videoUrl := "https://example/video.mp4";
                        VideoGen.generationId := "job-1";
                        VideoGen.creditsUsed := 250 |}, w')
    /\ statuses (trace w')
       = [Some "queued"; Some "queued"; Some "generating"; Some "completed"].
Proof.
  destruct (video_succeeds_after_pending "https://example/scene.png" "They talk" "key" 8 true
              world0 (createOk "job-1") "job-1" []
              [pollReport 500 (reportPending "queued"); pollReport 500 (reportPending "generating")]
              (pollReport 500 (reportCompleted (Some "https://example/video.mp4") (Some 250)))
              (reportCompleted (Some "https://example/video.mp4") (Some 250))
              "https://example/video.mp4" [])
    as (Hrun & _ & Hst).
  - reflexivity.
  - repeat constructor; unfold pending, terminal; simpl; intros [H|[H|H]]; discriminate H.
  - repeat constructor; simpl; lia.
  - vm_compute. reflexivity.
  - reflexivity.
  - reflexivity.
  - reflexivity.
  - discriminate.
  - eexists. split; [exact Hrun | exact Hst].
Defined.

(** ** Polls that are not retried, and polls that never run out of budget *)

(** X4. A rejected poll request whose error message contains 'failed' or
    'completed' ends the call at once with that error, whatever the count
    of consecutive failures: the budget of tolerated failures does not
    apply to it. *)
Theorem rejection_naming_failure_ends_polling
    (generationId : string) (onStatus : bool) (startTime n : Z) (w : World)
    (t : Tick VideoGen.PollData) (m : string) (rest : list (Tick VideoGen.PollData)) :
  now w - startTime < VideoGen.TIMEOUT_MS ->
  outcome t = Thrown m ->
  includes m "failed" || includes m "completed" = true ->
  VideoGen.pollLoop generationId onStatus startTime n w (t :: rest)
  = Some (Thrown m, polled generationId t w).
Proof.
  intros Hnow Ho Hm. apply Z.ltb_lt in Hnow.
  cbn [VideoGen.pollLoop]. rewrite Hnow.
  unfold VideoGen.pollBody, VideoGen.pollCatch. rewrite Ho, Hm.
  destruct (_ && _); reflexivity.
Qed.

Lemma rejection_naming_failure_ends_polling_witness :
  VideoGen.pollLoop "job-1" true 0 0 world0
    [pollRejected 0 "fetch failed"; pollReport 0 (reportPending "generating")]
  = Some (Thrown "fetch failed", polled "job-1" (pollRejected 0 "fetch failed") world0).
Proof.
  apply (rejection_naming_failure_ends_polling "job-1" true 0 0 world0
           (pollRejected 0 "fetch failed") "fetch failed"
           [pollReport 0 (reportPending "generating")]);
    [vm_compute; reflexivity | reflexivity | reflexivity].
Defined.

Lemma includes_skip (p t needle : string) (c : Ascii.ascii) :
  hasChar c p = false ->
  includes (p +:+ t) (String c needle) = includes t (String c needle).
Proof.
  induction p as [|x p IH]; intros H; [reflexivity|].
  cbn [hasChar] in H. apply orb_false_iff in H as [Hx Hp].
  rewrite append_cons, includes_cons, (IH Hp).
  cbn [String.prefix]. destruct (Ascii.ascii_dec c x) as [->|Hne].
  - now rewrite Ascii.eqb_refl in Hx.
  - reflexivity.
Qed.

Lemma hasChar_append c s t : hasChar c (s +:+ t) = hasChar c s || hasChar c t.
Proof.
  induction s as [|x s IH]; [reflexivity|].
  rewrite append_cons. cbn [hasChar]. now rewrite IH, orb_assoc.
Qed.

(** The decimal rendering of an integer holds digits and a sign only. *)
Lemma uint_no_s d : hasChar (Ascii.ascii_of_nat 115) (NilEmpty.string_of_uint d) = false.
Proof. induction d; cbn [NilEmpty.string_of_uint hasChar]; try rewrite IHd; reflexivity. Qed.

Lemma num_no_s z : hasChar (Ascii.ascii_of_nat 115) (num z) = false.
Proof.
  unfold num, NilZero.string_of_int, NilZero.string_of_uint.
  destruct (Z.to_int z) as [d|d]; destruct d; cbn [hasChar];
    try reflexivity; try apply uint_no_s;
    cbn [NilEmpty.string_of_uint hasChar]; rewrite ?uint_no_s; reflexivity.
Qed.

(** X5. A poll answered with a status below 500 that is not 2xx, and whose
    body does not contain 'server errors', ends the call at once with
    'Veo 3.1 poll error (<status>): <body>', whatever the count of
    consecutive failures: such an answer is not retried. *)
Theorem poll_client_error_ends_polling
    (generationId : string) (onStatus : bool) (startTime n : Z) (w : World)
    (t : Tick VideoGen.PollData) (r : Response VideoGen.PollData)
    (rest : list (Tick VideoGen.PollData)) :
  now w - startTime < VideoGen.TIMEOUT_MS ->
  outcome t = Returned r ->
  status r < 500 -> ok r = false ->
  includes (text r) "server errors" = false ->
  VideoGen.pollLoop generationId onStatus startTime n w (t :: rest)
  = Some (Thrown ("Veo 3.1 poll error (" +:+ num (status r) +:+ "): " +:+ text r),
          polled generationId t w).
Proof.
  intros Hnow Ho Hlt Hok Htext. apply Z.ltb_lt in Hnow.
  cbn [VideoGen.pollLoop]. rewrite Hnow.
  unfold VideoGen.pollBody. rewrite Ho, Hok.
  replace (500 <=? status r) with false by (symmetry; apply Z.leb_gt; lia).
  cbn [negb]. unfold VideoGen.pollCatch.
  assert (H1 : includes ("Veo 3.1 poll error (" +:+ num (status r) +:+ "): " +:+ text r)
                 "poll error" = true).
  { apply includes_append_l. reflexivity. }
  assert (H2 : includes ("Veo 3.1 poll error (" +:+ num (status r) +:+ "): " +:+ text r)
                 "server errors" = false).
  { rewrite <- (append_assoc (num (status r))), <- append_assoc.
    rewrite (includes_skip _ (text r) "erver errors" (Ascii.ascii_of_nat 115));
      [exact Htext|].
    rewrite !hasChar_append, num_no_s. reflexivity. }
  rewrite H1, H2. reflexivity.
Qed.

Lemma poll_client_error_ends_polling_witness :
  VideoGen.pollLoop "job-1" true 0 2 world0
    [pollStatus 0 404 "no such generation"; pollReport 0 (reportPending "generating")]
  = Some (Thrown "Veo 3.1 poll error (404): no such generation",
          polled "job-1" (pollStatus 0 404 "no such generation") world0).
Proof.
  apply (poll_client_error_ends_polling "job-1" true 0 2 world0
           (pollStatus 0 404 "no such generation")
           (mkResponse 404 "no such generation"
              (Thrown "Unexpected token < in JSON at position 0"))
           [pollReport 0 (reportPending "generating")]);
    [vm_compute; reflexivity | reflexivity | simpl; lia | reflexivity | reflexivity].
Defined.

Lemma pollBody_unparsable generationId onStatus n t w :
  unparsable t ->
  VideoGen.pollBody generationId onStatus n (outcome t) w = (VideoGen.Again 1, w).
Proof.
  intros (r & m & Ho & Hok & Hj & H1 & H2).
  unfold VideoGen.pollBody, VideoGen.pollCatch.
  rewrite Ho, (ok_below_500 r Hok), Hok, Hj, H1, H2. reflexivity.
Qed.

Lemma pollLoop_keeps_going generationId onStatus startTime script :
  forall w n,
    Forall (fun t => 0 <= latency t) script ->
    Forall (fun t => pending t \/ unparsable t) script ->
    VideoGen.TIMEOUT_MS - (now w - startTime)
      <= VideoGen.POLL_INTERVAL_MS * Z.of_nat (length script) ->
    exists w',
      VideoGen.pollLoop generationId onStatus startTime n w script
      = Some (Thrown VideoGen.timeoutMessage, w').
Proof.
  induction script as [|t rest IH]; intros w n Hlat Hgo Hlen; cbn [VideoGen.pollLoop].
  - cbn [length] in Hlen.
    replace (now w - startTime <? VideoGen.TIMEOUT_MS) with false
      by (symmetry; apply Z.ltb_ge; unfold VideoGen.POLL_INTERVAL_MS in *; lia).
    eauto.
  - apply Forall_cons_1 in Hlat as [Ht Hlat]. apply Forall_cons_1 in Hgo as [Hgt Hgo].
    destruct (Z.ltb_spec (now w - startTime) VideoGen.TIMEOUT_MS) as [Hin|Hout]; [|eauto].
    fold (pollUrl generationId). fold (polled generationId t w).
    assert (Hstep : exists n' w3,
              VideoGen.pollBody generationId onStatus n (outcome t) (polled generationId t w)
              = (VideoGen.Again n', w3) /\ now w3 = now (polled generationId t w)).
    { destruct Hgt as [Hp|Hu].
      - unfold pending in Hp. destruct (pollData t) as [d|] eqn:Hd; [|contradiction].
        rewrite (pollBody_pending _ _ _ _ d) by assumption.
        eexists _, _. split; [reflexivity | apply now_notify].
      - rewrite pollBody_unparsable by assumption. eauto. }
    destruct Hstep as (n' & w3 & -> & Hnow).
    apply IH; try assumption.
    rewrite Hnow, polled_now. cbn [length] in Hlen.
    unfold VideoGen.POLL_INTERVAL_MS in *. lia.
Qed.

(** X6. A 2xx poll whose body cannot be parsed puts the failure counter
    back to zero before it is counted, so the counter then reads 1 however
    many such polls came before. A polling phase made only of pending
    polls and of such unparsable ones is therefore never ended by the
    failure budget: it runs until the ceiling and ends with the timeout
    error. *)
Theorem unparsable_polls_never_exhaust_budget
    (generationId : string) (onStatus : bool) (n : Z) (w : World)
    (script : list (Tick VideoGen.PollData)) :
  Forall (fun t => 0 <= latency t) script ->
  Forall (fun t => pending t \/ unparsable t) script ->
  (30 <= length script)%nat ->
  (forall t k w0, unparsable t ->
     VideoGen.pollBody generationId onStatus k (outcome t) w0 = (VideoGen.Again 1, w0))
  /\ exists w',
       VideoGen.pollLoop generationId onStatus (now w) n w script
       = Some (Thrown VideoGen.timeoutMessage, w').
Proof.
  intros Hlat Hgo Hlen. split.
  - intros t k w0 Hu. now apply pollBody_unparsable.
  - apply pollLoop_keeps_going; try assumption.
    unfold VideoGen.TIMEOUT_MS, VideoGen.POLL_INTERVAL_MS. lia.
Qed.

Lemma unparsable_polls_never_exhaust_budget_witness :
  exists w',
    VideoGen.pollLoop "job-1" true 0 0 world0
      (replicate 30 (mkTick 0 (Returned (mkResponse 200 "<html>"
                                  (Thrown "Unexpected token < in JSON at position 0")))))
    = Some (Thrown "Video generation timed out after 300s", w').
Proof.
  apply (proj2 (unparsable_polls_never_exhaust_budget "job-1" true 0 world0
                  (replicate 30 (mkTick 0 (Returned (mkResponse 200 "<html>"
                                  (Thrown "Unexpected token < in JSON at position 0")))))
                  ltac:(apply Forall_replicate; simpl; lia)
                  ltac:(apply Forall_replicate; right; do 2 eexists;
                        repeat split; reflexivity)
                  ltac:(rewrite length_replicate; lia))).
Defined.

(** ** The ledger across requests *)












(** ** The result of processConversation *)





(** ** The web server's job records *)

Lemma update_other id id' s p x (g : gmap string WebServer.Generation) :
  id <> id' -> WebServer.update id s p x g !! id' = g !! id'.
Proof. intros Hne. unfold WebServer.update. now apply lookup_insert_ne. Qed.

Lemma fail_other id id' m (g : gmap string WebServer.Generation) :
  id <> id' -> WebServer.fail id m g !! id' = g !! id'.
Proof. intros Hne. unfold WebServer.fail. now apply update_other. Qed.

Lemma pollOperation_other id id' :
  id <> id' ->
  forall todo attempts operation answers (g g' : gmap string WebServer.Generation) c,
    WebServer.pollOperation id todo attempts operation answers g = Some (c, g') ->
    g' !! id' = g !! id'.
Proof.
  intros Hne. induction todo as [|todo IH]; intros attempts operation answers g g' c Hrun;
    cbn [WebServer.pollOperation] in Hrun.
  - destruct (WebServer.done operation); now simplify_eq.
  - destruct (WebServer.done operation); [now simplify_eq|].
    destruct answers as [|[operation'|m] rest]; [discriminate| |].
    + apply IH in Hrun. rewrite Hrun. now apply update_other.
    + simplify_eq. now apply update_other.
Qed.

(** X12. A background job writes to its own record only: whatever the job
    does and however it ends, the record of every other job id in the
    registry is what it was before. *)
Theorem job_touches_own_record_only
    (id id' : string) (env : WebServer.Run)
    (generations generations' : gmap string WebServer.Generation) :
  id <> id' ->
  WebServer.processGeneration id env generations = Some generations' ->
  generations' !! id' = generations !! id'.
Proof.
  intros Hne Hrun. unfold WebServer.processGeneration in Hrun.
  repeat case_match; simplify_eq;
    repeat match goal with
           | H : WebServer.pollOperation _ _ _ _ _ _ = Some _ |- _ =>
               apply (pollOperation_other id id' Hne) in H
           end;
    rewrite ?fail_other, ?update_other by assumption;
    try match goal with H : _ !! id' = _ |- _ => rewrite H end;
    rewrite ?fail_other, ?update_other by assumption; reflexivity.
Qed.

Lemma job_touches_own_record_only_witness :
  exists generations',
    WebServer.processGeneration "1700000000000" jobRun
      {[ "1699999999999" := completeRecord "1699999999999" ]} = Some generations'
    /\ generations' !! "1699999999999"
       = ({[ "1699999999999" := completeRecord "1699999999999" ]}
            : gmap string WebServer.Generation) !! "1699999999999".
Proof.
  eexists. split; [reflexivity|].
  apply (job_touches_own_record_only "1700000000000" "1699999999999" jobRun
           {[ "1699999999999" := completeRecord "1699999999999" ]} _
           ltac:(discriminate) eq_refl).
Defined.

Lemma pollOperation_total id :
  forall todo attempts operation answers (g : gmap string WebServer.Generation),
    (todo <= length answers)%nat ->
    exists c g', WebServer.pollOperation id todo attempts operation answers g = Some (c, g').
Proof.
  induction todo as [|todo IH]; intros attempts operation answers g Hlen;
    cbn [WebServer.pollOperation].
  - destruct (WebServer.done operation); eauto.
  - destruct (WebServer.done operation); [eauto|].
    destruct answers as [|[operation'|m] rest]; cbn [length] in Hlen; [lia| |eauto].
    apply IH. lia.
Qed.

Lemma complete_lookup id x (g : gmap string WebServer.Generation) :
  WebServer.update id WebServer.complete "Generation complete!"
    {| WebServer.x_scenePath := Some ("/output/scene_" +:+ id +:+ ".png");
       WebServer.x_videoPath := Some ("/output/video_" +:+ id +:+ ".mp4");
       WebServer.x_error := x |} g !! id
  = Some {| WebServer.gen_status := WebServer.complete;
            WebServer.progress := "Generation complete!";
            WebServer.scenePath := Some ("/output/scene_" +:+ id +:+ ".png");
            WebServer.videoPath := Some ("/output/video_" +:+ id +:+ ".mp4");
            WebServer.gen_error := x |}.
Proof. unfold WebServer.update. apply lookup_insert_eq. Qed.

(** X13. Given answers for the sixty status queries it may make, a
    background job always comes to an end, and the record it leaves is
    final: either the completed record, with the scene path and the video
    path, or an error record with a message. It is never left in status
    'pending', 'scene' or 'video'. *)
Theorem job_always_ends
    (id : string) (env : WebServer.Run) (generations : gmap string WebServer.Generation) :
  (60 <= length (WebServer.getVideosOperation env))%nat ->
  exists generations',
    WebServer.processGeneration id env generations = Some generations'
    /\ (generations' !! id = Some (completeRecord id)
        \/ exists m, generations' !! id = Some (errorRecord m)).
Proof.
  intros Hlen. unfold WebServer.processGeneration.
  repeat case_match; simplify_eq;
    try (eexists; split; [reflexivity|]; right; eexists; apply fail_lookup).
  - eexists. split; [reflexivity|]. left. apply complete_lookup.
  - match goal with
    | H : WebServer.pollOperation ?i ?n ?a ?o ?l ?g = None |- _ =>
        destruct (pollOperation_total i n a o l g Hlen) as (c & g' & Hc); congruence
    end.
Qed.

Lemma job_always_ends_witness :
  exists generations',
    WebServer.processGeneration "1700000000000" jobRunSlow ∅ = Some generations'
    /\ (generations' !! "1700000000000" = Some (completeRecord "1700000000000")
        \/ exists m, generations' !! "1700000000000" = Some (errorRecord m)).
Proof.
  apply (job_always_ends "1700000000000" jobRunSlow ∅).
  simpl. lia.
Defined.

Lemma pollOperation_never_done id :
  forall todo attempts operation answers (g : gmap string WebServer.Generation),
    WebServer.done operation = false ->
    Forall notDone (take todo answers) ->
    (todo <= length answers)%nat ->
    exists operation' g',
      WebServer.pollOperation id todo attempts operation answers g
      = Some (Returned operation', g')
      /\ WebServer.done operation' = false.
Proof.
  induction todo as [|todo IH]; intros attempts operation answers g Hnd Hall Hlen;
    cbn [WebServer.pollOperation]; rewrite Hnd.
  - eauto.
  - destruct answers as [|a rest]; cbn [length] in Hlen; [lia|].
    cbn [take] in Hall. apply Forall_cons_1 in Hall as [(o & -> & Ho) Hall].
    apply IH; [assumption | assumption | lia].
Qed.

(** X14. A job whose scene was produced and whose video operation is still
    not done after sixty status queries ends with the error 'Video
    generation timed out'; queries beyond the sixtieth are never made, so
    later answers change nothing. *)
Theorem job_times_out_after_sixty_queries
    (id : string) (env : WebServer.Run) (generations : gmap string WebServer.Generation)
    (a b image : string) (parts : option (list WebServer.Part))
    (operation : WebServer.Operation) :
  WebServer.readPortraitA env = Returned a ->
  WebServer.readPortraitB env = Returned b ->
  WebServer.generateContent env = Returned parts ->
  WebServer.firstInlineData (default [] parts) = Some image ->
  WebServer.writeScene env = Returned tt ->
  WebServer.generateVideos env = Returned operation ->
  WebServer.done operation = false ->
  (60 <= length (WebServer.getVideosOperation env))%nat ->
  Forall notDone (take 60 (WebServer.getVideosOperation env)) ->
  exists generations',
    WebServer.processGeneration id env generations = Some generations'
    /\ generations' !! id = Some (errorRecord "Video generation timed out").
Proof.
  intros Ha Hb Hc Hi Hw Hv Hnd Hlen Hall.
  unfold WebServer.processGeneration. rewrite Ha, Hb, Hc, Hi, Hw, Hv.
  match goal with
  | |- context [WebServer.pollOperation ?i ?n ?at0 ?o ?l ?g] =>
      destruct (pollOperation_never_done i n at0 o l g Hnd Hall Hlen)
        as (operation' & g' & -> & Hnd')
  end.
  rewrite Hnd'. cbn [negb].
  eexists. split; [reflexivity | apply fail_lookup].
Qed.

Lemma job_times_out_after_sixty_queries_witness :
  exists generations',
    WebServer.processGeneration "1700000000000" jobRunSlow ∅ = Some generations'
    /\ generations' !! "1700000000000" = Some (errorRecord "Video generation timed out").
Proof.
  apply (job_times_out_after_sixty_queries "1700000000000" jobRunSlow ∅ "A" "B"
           "iVBORw0KGgo=" (Some [ {| WebServer.inlineData := Some "iVBORw0KGgo=" |} ])
           {| WebServer.done := false; WebServer.generatedVideo := None |});
    try reflexivity.
  apply Forall_take. unfold jobRunSlow. cbn [WebServer.getVideosOperation].
  apply Forall_replicate. eexists. split; reflexivity.
Defined.

(** X15. Removing the uploaded portraits comes after the job has been
    marked complete: when that removal throws, the completed record is
    replaced by an error record, which holds the message of the removal
    and neither the scene path nor the video path, although both files
    have been written. *)
Theorem cleanup_failure_overwrites_completion
    (id : string) (env : WebServer.Run) (generations : gmap string WebServer.Generation)
    (a b image m : string) (parts : option (list WebServer.Part))
    (operation : WebServer.Operation) :
  WebServer.readPortraitA env = Returned a ->
  WebServer.readPortraitB env = Returned b ->
  WebServer.generateContent env = Returned parts ->
  WebServer.firstInlineData (default [] parts) = Some image ->
  WebServer.writeScene env = Returned tt ->
  WebServer.generateVideos env = Returned operation ->
  WebServer.done operation = true ->
  truthy (WebServer.generatedVideo operation) = true ->
  WebServer.download env = Returned tt ->
  (WebServer.unlinkPortraits env = Thrown m ->
   exists generations',
     WebServer.processGeneration id env generations = Some generations'
     /\ generations' !! id = Some (errorRecord m))
  /\ (WebServer.unlinkPortraits env = Returned tt ->
   exists generations',
     WebServer.processGeneration id env generations = Some generations'
     /\ generations' !! id = Some (completeRecord id)).
Proof.
  intros Ha Hb Hc Hi Hw Hv Hd Hvid Hdl.
  unfold WebServer.processGeneration. rewrite Ha, Hb, Hc, Hi, Hw, Hv.
  change WebServer.maxAttempts with 60%nat. cbn [WebServer.pollOperation].
  rewrite Hd. cbn beta iota. rewrite Hd, Hvid, Hdl. cbn [negb].
  split; intros ->; eexists; (split; [reflexivity|]).
  - apply fail_lookup.
  - apply complete_lookup.
Qed.

Lemma cleanup_failure_overwrites_completion_witness :
  exists generations',
    WebServer.processGeneration "1700000000000" jobRunCleanup ∅ = Some generations'
    /\ generations' !! "1700000000000"
       = Some (errorRecord "EPERM: operation not permitted, unlink").
Proof.
  apply (proj1 (cleanup_failure_overwrites_completion "1700000000000" jobRunCleanup ∅
                  "A" "B" "iVBORw0KGgo=" "EPERM: operation not permitted, unlink"
                  (Some [ {| WebServer.inlineData := Some "iVBORw0KGgo=" |} ])
                  {| WebServer.done := true; WebServer.generatedVideo := Some "files/abc" |}
                  eq_refl eq_refl eq_refl eq_refl eq_refl eq_refl eq_refl eq_refl eq_refl)).
  reflexivity.
Defined.

(** ** The polling loop of the Veo service *)

Lemma sleeps_elapse ms w : sleeps (trace (Veo3.elapse ms w)) = sleeps (trace w).
Proof. reflexivity. Qed.

Lemma pollUntilDone_at_max_wait c elapsedTime operation w answers :
  Veo3.done operation = false ->
  Veo3.maxWaitTimeMs c <= elapsedTime ->
  Veo3.pollUntilDone c elapsedTime operation w answers
  = Some (Thrown (Veo3.timeoutMessage c), w).
Proof.
  intros Hnd Hmax. apply Z.leb_le in Hmax.
  destruct answers; cbn [Veo3.pollUntilDone]; now rewrite Hnd, Hmax.
Qed.

Lemma pollUntilDone_gives_up (c : Veo3.Config) :
  0 < Veo3.pollIntervalMs c ->
  forall nd elapsedTime operation w rest,
    Veo3.done operation = false ->
    Forall veoNotDone nd ->
    Veo3.maxWaitTimeMs c <= elapsedTime + Veo3.pollIntervalMs c * Z.of_nat (length nd) ->
    ((0 < length nd)%nat ->
     elapsedTime + Veo3.pollIntervalMs c * (Z.of_nat (length nd) - 1)
       < Veo3.maxWaitTimeMs c) ->
    exists w',
      Veo3.pollUntilDone c elapsedTime operation w (nd ++ rest)
      = Some (Thrown (Veo3.timeoutMessage c), w')
      /\ sleeps (trace w')
         = sleeps (trace w) ++ replicate (length nd) (Veo3.pollIntervalMs c).
Proof.
  intros Hpos. induction nd as [|a nd IH];
    intros elapsedTime operation w rest Hnd Hall Hmax Hmin; cbn [length] in *.
  - exists w. split; [|now rewrite app_nil_r].
    apply pollUntilDone_at_max_wait; [assumption | lia].
  - apply Forall_cons_1 in Hall as [(o & Ho & Hod) Hall].
    cbn [app Veo3.pollUntilDone]. rewrite Hnd.
    replace (Veo3.maxWaitTimeMs c <=? elapsedTime) with false
      by (symmetry; apply Z.leb_gt; specialize (Hmin ltac:(lia)); nia).
    rewrite Ho.
    destruct (IH (elapsedTime + Veo3.pollIntervalMs c) o
                (Veo3.elapse (Veo3.took a) (sleep (Veo3.pollIntervalMs c) w)) rest
                Hod Hall) as (w' & Hrun & Hsl).
    + lia.
    + intros Hlen. specialize (Hmin ltac:(lia)). lia.
    + exists w'. split; [exact Hrun|].
      rewrite Hsl, sleeps_elapse, sleeps_sleep, <- app_assoc. reflexivity.
Qed.

(** X16. The Veo service counts the time it has slept, not the clock: with
    a positive poll interval, an operation that is still not done after
    [k] queries, where [k] is the least number of intervals that reaches
    the maximum wait, makes the call throw the timeout error after exactly
    [k] sleeps of one interval, however long the queries themselves took
    and whatever a further query would have answered. *)
Theorem veo_gives_up_after_max_wait
    (c : Veo3.Config) (prompt outputPath : string) (w : World) (env : Veo3.Run)
    (operation : Veo3.Operation) (nd rest : list (Veo3.Call Veo3.Operation)) :
  0 < Veo3.pollIntervalMs c ->
  Veo3.result (Veo3.generateVideos env) = Returned operation ->
  Veo3.done operation = false ->
  Veo3.getVideosOperation env = nd ++ rest ->
  Forall veoNotDone nd ->
  (0 < length nd)%nat ->
  Veo3.pollIntervalMs c * (Z.of_nat (length nd) - 1) < Veo3.maxWaitTimeMs c
    <= Veo3.pollIntervalMs c * Z.of_nat (length nd) ->
  exists w',
    Veo3.generateVideo c prompt outputPath w env
    = Some (Thrown (Veo3.timeoutMessage c), w')
    /\ sleeps (trace w')
       = sleeps (trace w) ++ replicate (length nd) (Veo3.pollIntervalMs c).
Proof.
  intros Hpos Hstart Hnd Hanswers Hall Hlen [Hmin Hmax].
  unfold Veo3.generateVideo. rewrite Hstart, Hanswers.
  destruct (pollUntilDone_gives_up c Hpos nd 0 operation
              (Veo3.elapse (Veo3.took (Veo3.generateVideos env)) w) rest Hnd Hall)
    as (w' & Hrun & Hsl); [lia | intros _; lia |].
  rewrite Hrun. exists w'. split; [reflexivity|].
  now rewrite Hsl, sleeps_elapse.
Qed.

Lemma veo_gives_up_after_max_wait_witness :
  exists w',
    Veo3.generateVideo Veo3.defaultConfig "Two people having a conversation" "./output/v.mp4"
      world0 veoRunSlow
    = Some (Thrown "Video generation timed out after 600 seconds", w')
    /\ sleeps (trace w') = sleeps (trace world0) ++ replicate 60 10000.
Proof.
  apply (veo_gives_up_after_max_wait Veo3.defaultConfig "Two people having a conversation"
           "./output/v.mp4" world0 veoRunSlow
           {| Veo3.done := false; Veo3.video := None |}
           (replicate 60 (Veo3.mkCall 300 (Returned {| Veo3.done := false; Veo3.video := None |})))
           [Veo3.mkCall 300 (Returned {| Veo3.done := true; Veo3.video := Some "files/abc" |})]).
  - simpl. lia.
  - reflexivity.
  - reflexivity.
  - reflexivity.
  - apply Forall_replicate. eexists. split; reflexivity.
  - simpl. lia.
  - simpl. lia.
Defined.

(** ** The server seen from its client *)

Lemma scene_reply_200 st req isoNow w script st' reply w' :
  Server.generateSceneHandler st req isoNow w script = Some (st', reply, w') ->
  Server.code reply = 200 ->
  exists u c,
    reply = {| Server.code := 200;
               Server.body := Server.SceneBody true u c
                                (Server.STARTING_CREDITS - Server.creditsUsedTotal st') |}.
Proof.
  unfold Server.generateSceneHandler. intros H Hc.
  repeat case_match; simplify_eq; try discriminate Hc; eauto.
Qed.

Lemma video_reply_200 st req isoNow w script st' reply w' :
  Server.generateVideoHandler st req isoNow w script = Some (st', reply, w') ->
  Server.code reply = 200 ->
  exists u g c,
    reply = {| Server.code := 200;
               Server.body := Server.VideoBody true u g c
                                (Server.STARTING_CREDITS - Server.creditsUsedTotal st') |}.
Proof.
  unfold Server.generateVideoHandler. intros H Hc.
  repeat case_match; simplify_eq; try discriminate Hc; eauto.
Qed.

(** X17. When the client's two requests are both answered with 200, the
    run ends in status 'done' with a scene image URL and a video URL and
    no error, and the remaining balance the client shows is the one of the
    server's ledger after the video request: the starting credits minus
    the consumed total. *)
Theorem client_shows_server_balance
    (st st1 st2 : Server.State) (sceneReq : Server.SceneRequest)
    (videoReq : Server.VideoRequest) (iso1 iso2 : string) (w w1 w2 : World)
    (script1 : list (Tick ImageGen.SceneData)) (script2 : VideoGen.Script)
    (r1 r2 : Server.Reply) (client : Client.State) :
  Server.generateSceneHandler st sceneReq iso1 w script1 = Some (st1, r1, w1) ->
  Server.code r1 = 200 ->
  Server.generateVideoHandler st1 videoReq iso2 w1 script2 = Some (st2, r2, w2) ->
  Server.code r2 = 200 ->
  let after := Client.handleGenerate
                 {| Client.sceneRes := delivered r1; Client.videoRes := delivered r2 |}
                 client in
  Client.status after = Client.done
  /\ Client.errorMessage after = None
  /\ is_Some (Client.sceneImageUrl after)
  /\ is_Some (Client.videoUrl after)
  /\ Client.creditsRemaining (Client.credits after)
     = Server.STARTING_CREDITS - Server.creditsUsedTotal st2.
Proof.
  intros H1 Hc1 H2 Hc2 after. subst after.
  apply scene_reply_200 in H1 as (u1 & c1 & ->); [|assumption].
  apply video_reply_200 in H2 as (u2 & g2 & c2 & ->); [|assumption].
  cbn. repeat split; eauto.
Qed.

Lemma client_shows_server_balance_witness :
  Client.creditsRemaining
    (Client.credits
       (Client.handleGenerate
          {| Client.sceneRes :=
               delivered {| Server.code := 200;
                            Server.body := Server.SceneBody true "https://example/scene.png"
                                             120 19999880 |};
             Client.videoRes :=
               delivered {| Server.code := 200;
                            Server.body := Server.VideoBody true "https://example/video.mp4"
                                             "job-1" 250 19999630 |} |}
          idleClient))
  = Server.STARTING_CREDITS
    - Server.creditsUsedTotal
        (Server.charge 250 "2026-01-01T00:05:00.000Z"
           (Server.charge 120 "2026-01-01T00:00:00.000Z" (Server.start "key" Server.Missing))).
Proof.
  refine (proj2 (proj2 (proj2 (proj2
    (client_shows_server_balance (Server.start "key" Server.Missing)
       (Server.charge 120 "2026-01-01T00:00:00.000Z" (Server.start "key" Server.Missing))
       (Server.charge 250 "2026-01-01T00:05:00.000Z"
          (Server.charge 120 "2026-01-01T00:00:00.000Z" (Server.start "key" Server.Missing)))
       sceneRequest videoRequest "2026-01-01T00:00:00.000Z" "2026-01-01T00:05:00.000Z"
       world0 _ _
       [sceneOk "https://example/scene.png" (Some 120)]
       {| VideoGen.creates := [createOk "job-1"];
          VideoGen.polls :=
            [pollReport 0 (reportCompleted (Some "https://example/video.mp4") (Some 250))] |}
       _ _ idleClient eq_refl eq_refl eq_refl eq_refl))))).
Defined.

(** X18. An error thrown by the scene call reaches the user word for
    word: the server answers 500 with the message, and the client ends in
    status 'error' showing that message ('Scene generation failed' when it
    is empty), with no scene or video URL left from an earlier run, its
    credits display untouched, and without the video request playing any
    part. *)
Theorem scene_error_reaches_client
    (st : Server.State) (req : Server.SceneRequest) (a b : Server.Upload)
    (isoNow : string) (w w' : World) (script : list (Tick ImageGen.SceneData))
    (m : string) (videoRes : Completion Client.Fetched) (client : Client.State) :
  Server.portraitA req = Some a -> Server.portraitB req = Some b ->
  truthy (Server.scenario req) = true ->
  ImageGen.generateScene (Server.dataUri a) (Server.dataUri b)
    (default EmptyString (Server.scenario req)) (Server.API_KEY st) w script
  = Some (Thrown m, w') ->
  Server.generateSceneHandler st req isoNow w script
  = Some (st, {| Server.code := 500; Server.body := Server.ErrorBody m |}, w')
  /\ Client.handleGenerate
       {| Client.sceneRes :=
            delivered {| Server.code := 500; Server.body := Server.ErrorBody m |};
          Client.videoRes := videoRes |} client
     = {| Client.status := Client.error;
          Client.sceneImageUrl := None;
          Client.videoUrl := None;
          Client.errorMessage :=
            Some (if String.eqb m EmptyString then "Scene generation failed" else m);
          Client.statusMessage := EmptyString;
          Client.credits := Client.credits client |}.
Proof.
  intros Ha Hb Hs Hrun. split.
  - unfold Server.generateSceneHandler. now rewrite Ha, Hb, Hs, Hrun.
  - unfold Client.handleGenerate, Client.receive, delivered, replyJson, Client.failed.
    cbn. unfold or_else, truthy. destruct (String.eqb m EmptyString); reflexivity.
Qed.

Lemma scene_error_reaches_client_witness :
  Client.errorMessage
    (Client.handleGenerate
       {| Client.sceneRes :=
            delivered {| Server.code := 500;
                         Server.body := Server.ErrorBody "NanoBanana API error (400): bad request" |};
          Client.videoRes := Thrown "unused" |} idleClient)
  = Some "NanoBanana API error (400): bad request".
Proof.
  pose proof (proj2 (scene_error_reaches_client (Server.start "key" Server.Missing) sceneRequest
                {| Server.mimetype := "image/png"; Server.base64 := "QQ==" |}
                {| Server.mimetype := "image/jpeg"; Server.base64 := "Qg==" |}
                "2026-01-01T00:00:00.000Z" world0
                (fetch sceneUrl (sceneStatus 400 "bad request") world0)
                [sceneStatus 400 "bad request"]
                "NanoBanana API error (400): bad request" (Thrown "unused") idleClient
                eq_refl eq_refl eq_refl eq_refl)) as H.
  rewrite H. reflexivity.
Defined.

(** ** Job ids *)





